(** * The AWS Config delivery-channel resource: put, read and delete

    A shallow embedding of [aws/resource_aws_config_delivery_channel.go]:
    the three CRUD functions of the resource
    ([resourceAwsConfigDeliveryChannelPut], [...Read], [...Delete]) as state
    transformers over the resource data [d], the remote service behind
    [conn] and the log of the remote calls that were issued. *)

From Stdlib Require Import ZArith String Bool List Lia.
From stdpp Require Import gmap strings list.

Local Open Scope string_scope.
Local Open Scope list_scope.

(** ** The wire types of the [configservice] package *)

(** A [*string] of the SDK is an [option string]: [None] is the nil
    pointer, and [aws.String v] is the pointer to [v]. *)
Definition aws_String (v : string) : option string := Some v.

Record SnapshotDeliveryProperties : Type := {
  DeliveryFrequency : option string
}.

Record DeliveryChannel : Type := {
  Name : option string;
  S3BucketName : option string;
  S3KeyPrefix : option string;
  S3KmsKeyArn : option string;
  SnsTopicARN : option string;
  ConfigSnapshotDeliveryProperties : option SnapshotDeliveryProperties
}.

Record PutDeliveryChannelInput : Type := {
  PutInput_DeliveryChannel : DeliveryChannel
}.

Record DescribeDeliveryChannelsInput : Type := {
  DeliveryChannelNames : list string
}.

Record DescribeDeliveryChannelsOutput : Type := {
  DeliveryChannels : list DeliveryChannel
}.

Record DeleteDeliveryChannelInput : Type := {
  DeliveryChannelName : string
}.

(** ** Errors *)

(** What a remote call can fail with: an [awserr.Error], which carries a
    code and a message, or an error of another dynamic type (the type
    assertion [err.(awserr.Error)] of Read fails on it). *)
Inductive RemoteError : Type :=
| AwsError (Code Message : string)
| PlainError (text : string).

(** The [error] values of the resource functions: a remote error as it
    came back, the time-out of [resource.Retry], or an error built by
    [fmt.Errorf], kept as its format string and its arguments. *)
Inductive error : Type :=
| Remote (e : RemoteError)
| TimeoutError
| Errorf (format : string) (args : list FmtArg)
with FmtArg : Type :=
| ArgInt (n : nat)
| ArgString (s : string)
| ArgError (e : error)
| ArgChannels (l : list DeliveryChannel).

(** [strings.Contains]. *)
Fixpoint Contains (s substr : string) : bool :=
  String.prefix substr s ||
  match s with
  | EmptyString => false
  | String _ s' => Contains s' substr
  end.

(** Modelled from the spec: the helper [isAWSErr] of the provider, which
    this file calls and does not define.  The error must carry the given
    machine-readable code, and its message is additionally checked for the
    given substring. *)
Definition isAWSErr (err : error) (code message : string) : bool :=
  match err with
  | Remote (AwsError c m) => String.eqb c code && Contains m message
  | _ => false
  end.

(** Modelled from the spec: the helper [isResourceTimeoutError] of the
    provider, which recognises that the retry policy's timeout elapsed. *)
Definition isResourceTimeoutError (err : option error) : bool :=
  match err with
  | Some TimeoutError => true
  | _ => false
  end.

(** Modelled from the spec: the constant of the SDK that names the "last
    delivery channel delete failed" code. *)
Definition ErrCodeLastDeliveryChannelDeleteFailedException : string :=
  "LastDeliveryChannelDeleteFailedException".

(** ** The resource data *)

(** The attributes of [schema.ResourceData] that the resource declares,
    with its identity.  An optional string attribute holds a value or
    nothing, and counts as set when the value is not the zero value, the
    empty string.  An element of [snapshot_delivery_properties] is a Go
    map from the attribute names of the block to strings, or [nil] (here
    [None]) for a block in which nothing is set. *)
Record ResourceData : Type := {
  Id : string;
  name : string;
  s3_bucket_name : string;
  s3_key_prefix : option string;
  s3_kms_key_arn : option string;
  sns_topic_arn : option string;
  snapshot_delivery_properties : list (option (gmap string string))
}.

Definition SetId (v : string) (d : ResourceData) : ResourceData :=
  {| Id := v; name := name d; s3_bucket_name := s3_bucket_name d;
     s3_key_prefix := s3_key_prefix d; s3_kms_key_arn := s3_kms_key_arn d;
     sns_topic_arn := sns_topic_arn d;
     snapshot_delivery_properties := snapshot_delivery_properties d |}.

(** [d.GetOk] on an optional string attribute: the value and whether the
    attribute is set to a value other than the zero value. *)
Definition GetOk_string (a : option string) : string * bool :=
  match a with
  | Some v => (v, negb (String.eqb v ""))
  | None => ("", false)
  end.

(** [d.GetOk] on a list of blocks: set when there is a block. *)
Definition GetOk_blocks (l : list (option (gmap string string)))
  : list (option (gmap string string)) * bool :=
  (l, match l with [] => false | _ :: _ => true end).

(** The optional string attribute as [d.GetOk] lets Put see it: the value
    when it is set, and nothing for the zero value. *)
Definition nonzero (a : option string) : option string :=
  match a with
  | Some v => if String.eqb v "" then None else Some v
  | None => None
  end.

(** [d.Set] of a [*string] on a string attribute: a nil pointer leaves the
    zero value. *)
Definition deref (p : option string) : string := default "" p.

(** Modelled from the spec: the helper
    [flattenConfigSnapshotDeliveryProperties] of the provider.  The block
    the service reports is copied as one block, which holds the frequency
    when the service reports it. *)
Definition flattenConfigSnapshotDeliveryProperties
    (p : SnapshotDeliveryProperties) : list (option (gmap string string)) :=
  [ Some match DeliveryFrequency p with
         | Some f => {[ "delivery_frequency" := f ]}
         | None => ∅
         end ].

(** The channel with the name and the bucket of the resource data, its
    optional strings that are set, and the given snapshot-delivery block. *)
Definition channel_of (x : ResourceData)
    (p : option SnapshotDeliveryProperties) : DeliveryChannel :=
  {| Name := Some (name x);
     S3BucketName := Some (s3_bucket_name x);
     S3KeyPrefix := nonzero (s3_key_prefix x);
     S3KmsKeyArn := nonzero (s3_kms_key_arn x);
     SnsTopicARN := nonzero (sns_topic_arn x);
     ConfigSnapshotDeliveryProperties := p |}.

(** The assignments to the fields of [channel]. *)
Definition with_S3KeyPrefix (v : option string) (c : DeliveryChannel) :=
  {| Name := Name c; S3BucketName := S3BucketName c; S3KeyPrefix := v;
     S3KmsKeyArn := S3KmsKeyArn c; SnsTopicARN := SnsTopicARN c;
     ConfigSnapshotDeliveryProperties := ConfigSnapshotDeliveryProperties c |}.

Definition with_S3KmsKeyArn (v : option string) (c : DeliveryChannel) :=
  {| Name := Name c; S3BucketName := S3BucketName c;
     S3KeyPrefix := S3KeyPrefix c;
     S3KmsKeyArn := v; SnsTopicARN := SnsTopicARN c;
     ConfigSnapshotDeliveryProperties := ConfigSnapshotDeliveryProperties c |}.

Definition with_SnsTopicARN (v : option string) (c : DeliveryChannel) :=
  {| Name := Name c; S3BucketName := S3BucketName c;
     S3KeyPrefix := S3KeyPrefix c;
     S3KmsKeyArn := S3KmsKeyArn c; SnsTopicARN := v;
     ConfigSnapshotDeliveryProperties := ConfigSnapshotDeliveryProperties c |}.

Definition with_ConfigSnapshotDeliveryProperties
    (v : option SnapshotDeliveryProperties) (c : DeliveryChannel) :=
  {| Name := Name c; S3BucketName := S3BucketName c;
     S3KeyPrefix := S3KeyPrefix c;
     S3KmsKeyArn := S3KmsKeyArn c; SnsTopicARN := SnsTopicARN c;
     ConfigSnapshotDeliveryProperties := v |}.

(** Lines 75-100 of [resourceAwsConfigDeliveryChannelPut]: the channel that
    is sent, built from the attributes of [d].  The type assertion
    [propertiesBlocks[0].(map[string]interface{})] of line 93 has no [ok]
    result, so it panics when the first block is [nil]: the result is then
    [None], and no channel is built.  The lookup of line 95 has one, and a
    map without the key leaves the channel without the block. *)
Definition putChannel (d : ResourceData) : option DeliveryChannel :=
  let channel :=
    {| Name := aws_String (name d);
       S3BucketName := aws_String (s3_bucket_name d);
       S3KeyPrefix := None; S3KmsKeyArn := None; SnsTopicARN := None;
       ConfigSnapshotDeliveryProperties := None |} in
  let channel :=
    match GetOk_string (s3_key_prefix d) with
    | (v, true) => with_S3KeyPrefix (aws_String v) channel
    | (_, false) => channel
    end in
  let channel :=
    match GetOk_string (s3_kms_key_arn d) with
    | (v, true) => with_S3KmsKeyArn (aws_String v) channel
    | (_, false) => channel
    end in
  let channel :=
    match GetOk_string (sns_topic_arn d) with
    | (v, true) => with_SnsTopicARN (aws_String v) channel
    | (_, false) => channel
    end in
  match GetOk_blocks (snapshot_delivery_properties d) with
  | (Some block :: _, true) =>
      match block !! "delivery_frequency" with
      | Some v =>
          Some (with_ConfigSnapshotDeliveryProperties
                  (Some {| DeliveryFrequency := aws_String v |}) channel)
      | None => Some channel
      end
  | (None :: _, true) => None
  | _ => Some channel
  end.

(** ** The remote service and the state of a call *)

(** The three operations of the service client [conn] that the resource
    uses.  A client has a state of its own, which every call may change;
    a call returns its error ([None] is Go's [nil]) or its output. *)
Class ConfigService (Svc : Type) : Type := {
  PutDeliveryChannel :
    PutDeliveryChannelInput -> Svc -> option RemoteError * Svc;
  DescribeDeliveryChannels :
    DescribeDeliveryChannelsInput -> Svc ->
    (RemoteError + DescribeDeliveryChannelsOutput) * Svc;
  DeleteDeliveryChannel :
    DeleteDeliveryChannelInput -> Svc -> option RemoteError * Svc
}.

(** The remote calls, as they are logged. *)
Inductive Call : Type :=
| CallPut (input : PutDeliveryChannelInput)
| CallDescribe (input : DescribeDeliveryChannelsInput)
| CallDelete (input : DeleteDeliveryChannelInput).

(** [time.Second], in nanoseconds. *)
Definition Second : Z := 1000000000.

(** [*resource.RetryError]. *)
Record RetryError : Type := {
  Err : error;
  Retryable : bool
}.

Definition RetryableError (err : error) : RetryError :=
  {| Err := err; Retryable := true |}.

Definition NonRetryableError (err : error) : RetryError :=
  {| Err := err; Retryable := false |}.

Section Resource.

Context {Svc : Type} {client : ConfigService Svc}.

(** Modelled from the spec: the attempt budget of a timeout, which is
    the number of times the retry policy can back off and re-run the
    operation, after its immediate first run, before a timeout of the
    given duration (in nanoseconds) elapses. *)
Variable retries_within : Z -> nat.

(** Modelled from the spec: the constant [iamwaiter.PropagationTimeout],
    the longer, domain-standard propagation window. *)
Variable PropagationTimeout : Z.

(** What a resource function works on: the resource data behind the
    pointer [d], the service behind [conn], and the calls issued so
    far, oldest first. *)
Record State : Type := {
  d : ResourceData;
  conn : Svc;
  calls : list Call
}.

Definition M (A : Type) : Type := State -> A * State.

#[local] Instance M_ret : MRet M := fun A (a : A) st => (a, st).

#[local] Instance M_bind : MBind M := fun A B (f : A -> M B) (m : M A) st =>
  let (a, st') := m st in f a st'.

Definition get_d : M ResourceData := fun st => (d st, st).

Definition modify_d (f : ResourceData -> ResourceData) : M unit := fun st =>
  (tt, {| d := f (d st); conn := conn st; calls := calls st |}).

(** A call through [conn]: the service answers and moves on, and the
    call is logged. *)
Definition conn_call {Req Resp : Type} (op : Req -> Svc -> Resp * Svc)
    (tag : Req -> Call) (input : Req) : M Resp := fun st =>
  let (r, c) := op input (conn st) in
  (r, {| d := d st; conn := c; calls := calls st ++ [tag input] |}).

Definition conn_PutDeliveryChannel
  : PutDeliveryChannelInput -> M (option RemoteError) :=
  conn_call PutDeliveryChannel CallPut.

Definition conn_DescribeDeliveryChannels
  : DescribeDeliveryChannelsInput ->
    M (RemoteError + DescribeDeliveryChannelsOutput) :=
  conn_call DescribeDeliveryChannels CallDescribe.

Definition conn_DeleteDeliveryChannel
  : DeleteDeliveryChannelInput -> M (option RemoteError) :=
  conn_call DeleteDeliveryChannel CallDelete.

(** Modelled from the spec: [resource.Retry] of the SDK.  The operation
    runs once immediately; success or a terminal error returns at once;
    on a retryable error the policy backs off and re-runs the operation
    until the timeout elapses, and then reports the time-out. *)
Fixpoint retry_loop (budget : nat) (f : M (option RetryError))
  : M (option error) := fun st =>
  let (r, st') := f st in
  match r with
  | None => (None, st')
  | Some rerr =>
      if Retryable rerr then
        match budget with
        | O => (Some TimeoutError, st')
        | S budget' => retry_loop budget' f st'
        end
      else (Some (Err rerr), st')
  end.

Definition Retry (timeout : Z) (f : M (option RetryError))
  : M (option error) :=
  retry_loop (retries_within timeout) f.

(** [d.Set] for each attribute that Read writes. *)
Definition Set_name (v : option string) (x : ResourceData) :=
  {| Id := Id x; name := deref v; s3_bucket_name := s3_bucket_name x;
     s3_key_prefix := s3_key_prefix x; s3_kms_key_arn := s3_kms_key_arn x;
     sns_topic_arn := sns_topic_arn x;
     snapshot_delivery_properties := snapshot_delivery_properties x |}.

Definition Set_s3_bucket_name (v : option string) (x : ResourceData) :=
  {| Id := Id x; name := name x; s3_bucket_name := deref v;
     s3_key_prefix := s3_key_prefix x; s3_kms_key_arn := s3_kms_key_arn x;
     sns_topic_arn := sns_topic_arn x;
     snapshot_delivery_properties := snapshot_delivery_properties x |}.

Definition Set_s3_key_prefix (v : option string) (x : ResourceData) :=
  {| Id := Id x; name := name x; s3_bucket_name := s3_bucket_name x;
     s3_key_prefix := v; s3_kms_key_arn := s3_kms_key_arn x;
     sns_topic_arn := sns_topic_arn x;
     snapshot_delivery_properties := snapshot_delivery_properties x |}.

Definition Set_s3_kms_key_arn (v : option string) (x : ResourceData) :=
  {| Id := Id x; name := name x; s3_bucket_name := s3_bucket_name x;
     s3_key_prefix := s3_key_prefix x; s3_kms_key_arn := v;
     sns_topic_arn := sns_topic_arn x;
     snapshot_delivery_properties := snapshot_delivery_properties x |}.

Definition Set_sns_topic_arn (v : option string) (x : ResourceData) :=
  {| Id := Id x; name := name x; s3_bucket_name := s3_bucket_name x;
     s3_key_prefix := s3_key_prefix x; s3_kms_key_arn := s3_kms_key_arn x;
     sns_topic_arn := v;
     snapshot_delivery_properties := snapshot_delivery_properties x |}.

Definition Set_snapshot_delivery_properties
    (v : list (option (gmap string string))) (x : ResourceData) :=
  {| Id := Id x; name := name x; s3_bucket_name := s3_bucket_name x;
     s3_key_prefix := s3_key_prefix x; s3_kms_key_arn := s3_kms_key_arn x;
     sns_topic_arn := sns_topic_arn x;
     snapshot_delivery_properties := v |}.

(** ** Read *)

(** The two [log.Printf] lines write to the process log only and are left
    out.  The last case of the inner [match] is never reached: the list has
    exactly one element there, as [out.DeliveryChannels[0]] needs. *)
Definition resourceAwsConfigDeliveryChannelRead : M (option error) :=
  d0 ← get_d;
  let input := {| DeliveryChannelNames := [Id d0] |} in
  r ← conn_DescribeDeliveryChannels input;
  match r with
  | inl err =>
      match err with
      | AwsError code _ =>
          if String.eqb code "NoSuchDeliveryChannelException" then
            _ ← modify_d (SetId "");
            mret None
          else
            mret (Some (Errorf "Getting Delivery Channel failed: %s"
                          [ArgError (Remote err)]))
      | PlainError _ =>
          mret (Some (Errorf "Getting Delivery Channel failed: %s"
                        [ArgError (Remote err)]))
      end
  | inr out =>
      if (List.length (DeliveryChannels out) <? 1)%nat then
        _ ← modify_d (SetId "");
        mret None
      else if (1 <? List.length (DeliveryChannels out))%nat then
        mret (Some (Errorf
          "Received %d delivery channels under %s (expected exactly 1): %s"
          [ArgInt (List.length (DeliveryChannels out)); ArgString (Id d0);
           ArgChannels (DeliveryChannels out)]))
      else
        match DeliveryChannels out with
        | channel :: _ =>
            _ ← modify_d (Set_name (Name channel));
            _ ← modify_d (Set_s3_bucket_name (S3BucketName channel));
            _ ← modify_d (Set_s3_key_prefix (S3KeyPrefix channel));
            _ ← modify_d (Set_s3_kms_key_arn (S3KmsKeyArn channel));
            _ ← modify_d (Set_sns_topic_arn (SnsTopicARN channel));
            _ ← match ConfigSnapshotDeliveryProperties channel with
                | Some p =>
                    modify_d (Set_snapshot_delivery_properties
                                (flattenConfigSnapshotDeliveryProperties p))
                | None => mret tt
                end;
            mret None
        | [] => mret None
        end
  end.

(** ** Put (Create and Update) *)

(** The function that Put hands to [resource.Retry] (lines 104-115). *)
Definition put_attempt (input : PutDeliveryChannelInput)
  : M (option RetryError) :=
  err ← conn_PutDeliveryChannel input;
  match err with
  | None => mret None
  | Some e =>
      if isAWSErr (Remote e) "InsufficientDeliveryPolicyException" ""
      then mret (Some (RetryableError (Remote e)))
      else mret (Some (NonRetryableError (Remote e)))
  end.

(** Lines 102-125: the channel that was built is put, and Read follows. *)
Definition put_built (channel : DeliveryChannel) : M (option error) :=
  d0 ← get_d;
  let name := name d0 in
  let input := {| PutInput_DeliveryChannel := channel |} in
  err ← Retry PropagationTimeout (put_attempt input);
  err ← (if isResourceTimeoutError err then
           e ← conn_PutDeliveryChannel input;
           mret (Remote <$> e)
         else mret err);
  match err with
  | Some e =>
      mret (Some (Errorf "Creating Delivery Channel failed: %s" [ArgError e]))
  | None =>
      _ ← modify_d (SetId name);
      resourceAwsConfigDeliveryChannelRead
  end.

(** Put returns an error or [nil], with the state it leaves, unless the
    type assertion of line 93 panics: then it returns nothing ([None]),
    and no remote call has been made. *)
Definition resourceAwsConfigDeliveryChannelPut (st : State)
  : option (option error * State) :=
  match putChannel (d st) with
  | Some channel => Some (put_built channel st)
  | None => None
  end.

(** ** Delete *)

(** The function that Delete hands to [resource.Retry] (lines 178-188). *)
Definition delete_attempt (input : DeleteDeliveryChannelInput)
  : M (option RetryError) :=
  err ← conn_DeleteDeliveryChannel input;
  match err with
  | Some e =>
      if isAWSErr (Remote e)
           ErrCodeLastDeliveryChannelDeleteFailedException
           "there is a running configuration recorder"
      then mret (Some (RetryableError (Remote e)))
      else mret (Some (NonRetryableError (Remote e)))
  | None => mret None
  end.

Definition resourceAwsConfigDeliveryChannelDelete : M (option error) :=
  d0 ← get_d;
  let input := {| DeliveryChannelName := Id d0 |} in
  err ← Retry (30 * Second) (delete_attempt input);
  err ← (if isResourceTimeoutError err then
           e ← conn_DeleteDeliveryChannel input;
           mret (Remote <$> e)
         else mret err);
  match err with
  | Some e =>
      mret (Some (Errorf "Unable to delete delivery channel: %s" [ArgError e]))
  | None => mret None
  end.

End Resource.

Arguments State Svc : clear implicits.
Arguments M Svc A : clear implicits.

(** The state after further calls: the resource data as it was, the
    service in its new state and the log extended. *)
Definition advance {Svc : Type} (st : State Svc) (s : Svc) (log : list Call)
  : State Svc :=
  {| d := d st; conn := s; calls := calls st ++ log |}.

(** The state with the resource data replaced. *)
Definition with_d {Svc : Type} (x : ResourceData) (st : State Svc)
  : State Svc :=
  {| d := x; conn := conn st; calls := calls st |}.

(** ** What a client answers to successive calls *)

(** The answers to [n] successive calls of one operation on one input,
    with the state the client is left in. *)
Fixpoint run_calls {Svc Req : Type}
    (op : Req -> Svc -> option RemoteError * Svc) (input : Req) (n : nat) (s : Svc) : list (option RemoteError) * Svc :=
  match n with
  | O => ([], s)
  | S n' =>
      let (r, s1) := op input s in
      let (rs, s2) := run_calls op input n' s1 in
      (r :: rs, s2)
  end.

(** The classification of a remote error by [put_attempt]. *)
Definition put_retryable (e : RemoteError) : bool :=
  isAWSErr (Remote e) "InsufficientDeliveryPolicyException" "".

(** The classification of a remote error by [delete_attempt]. *)
Definition delete_retryable (e : RemoteError) : bool :=
  isAWSErr (Remote e) ErrCodeLastDeliveryChannelDeleteFailedException
    "there is a running configuration recorder".

(** An answer that makes the retry policy back off and run again. *)
Definition retried (classify : RemoteError -> bool)
    (r : option RemoteError) : Prop :=
  exists e, r = Some e /\ classify e = true.

(** An answer that ends the retry phase: success or a terminal error. *)
Definition settled (classify : RemoteError -> bool)
    (r : option RemoteError) : Prop :=
  match r with
  | None => True
  | Some e => classify e = false
  end.

(** How a resource function wraps the error it surfaces. *)
Definition wrapped (format : string) (r : option RemoteError) : option error :=
  match r with
  | None => None
  | Some e => Some (Errorf format [ArgError (Remote e)])
  end.

(** Whether an error is the time-out of the retry policy, or wraps it. *)
Fixpoint mentions_timeout (e : error) : bool :=
  match e with
  | Remote _ => false
  | TimeoutError => true
  | Errorf _ args =>
      existsb (fun a => match a with
                        | ArgError e' => mentions_timeout e'
                        | _ => false
                        end) args
  end.

(** What a resource function returns is free of the time-out. *)
Definition timeout_free (r : option error) : Prop :=
  match r with
  | Some e => mentions_timeout e = false
  | None => True
  end.

(** The resource data that a successful Put leaves when the service echoes
    the channel it was sent. *)
Definition echoed (x : ResourceData) (channel : DeliveryChannel)
  : ResourceData :=
  {| Id := name x;
     name := name x;
     s3_bucket_name := s3_bucket_name x;
     s3_key_prefix := S3KeyPrefix channel;
     s3_kms_key_arn := S3KmsKeyArn channel;
     sns_topic_arn := SnsTopicARN channel;
     snapshot_delivery_properties :=
       match ConfigSnapshotDeliveryProperties channel with
       | Some p => flattenConfigSnapshotDeliveryProperties p
       | None => snapshot_delivery_properties x
       end |}.

(** ** Two simulated clients *)

(** A service that stores channels by name: put replaces the channel of
    that name, describe returns the stored channels of the requested
    names, delete removes the channel. *)
Module Echo.

Definition put (input : PutDeliveryChannelInput)
    (s : gmap string DeliveryChannel)
  : option RemoteError * gmap string DeliveryChannel :=
  match Name (PutInput_DeliveryChannel input) with
  | Some n => (None, <[n := PutInput_DeliveryChannel input]> s)
  | None => (Some (AwsError "ValidationException" "missing name"), s)
  end.

Definition describe (input : DescribeDeliveryChannelsInput)
    (s : gmap string DeliveryChannel)
  : (RemoteError + DescribeDeliveryChannelsOutput)
    * gmap string DeliveryChannel :=
  (inr {| DeliveryChannels :=
            omap (fun n => s !! n) (DeliveryChannelNames input) |}, s).

Definition delete (input : DeleteDeliveryChannelInput)
    (s : gmap string DeliveryChannel)
  : option RemoteError * gmap string DeliveryChannel :=
  match s !! DeliveryChannelName input with
  | Some _ => (None, base.delete (DeliveryChannelName input) s)
  | None =>
      (Some (AwsError "NoSuchDeliveryChannelException" "no such channel"), s)
  end.

Definition service : ConfigService (gmap string DeliveryChannel) :=
  {| PutDeliveryChannel := put;
     DescribeDeliveryChannels := describe;
     DeleteDeliveryChannel := delete |}.

End Echo.

(** A client that plays back canned answers, one per call; when a script
    runs out, put and delete succeed and describe finds nothing. *)
Module Scripted.

Record Scripts : Type := {
  puts : list (option RemoteError);
  describes : list (RemoteError + DescribeDeliveryChannelsOutput);
  deletes : list (option RemoteError)
}.

Definition put (_ : PutDeliveryChannelInput) (s : Scripts)
  : option RemoteError * Scripts :=
  match puts s with
  | r :: rest =>
      (r, {| puts := rest; describes := describes s; deletes := deletes s |})
  | [] => (None, s)
  end.

Definition describe (_ : DescribeDeliveryChannelsInput) (s : Scripts)
  : (RemoteError + DescribeDeliveryChannelsOutput) * Scripts :=
  match describes s with
  | r :: rest =>
      (r, {| puts := puts s; describes := rest; deletes := deletes s |})
  | [] => (inr {| DeliveryChannels := [] |}, s)
  end.

Definition delete (_ : DeleteDeliveryChannelInput) (s : Scripts)
  : option RemoteError * Scripts :=
  match deletes s with
  | r :: rest =>
      (r, {| puts := puts s; describes := describes s; deletes := rest |})
  | [] => (None, s)
  end.

Definition service : ConfigService Scripts :=
  {| PutDeliveryChannel := put;
     DescribeDeliveryChannels := describe;
     DeleteDeliveryChannel := delete |}.

End Scripted.

(** ** Concrete inputs *)

Module Sample.

(** A retry policy that backs off ten seconds between runs. *)
Definition retries_within (timeout : Z) : nat :=
  Z.to_nat (timeout / (10 * Second)).

(** Two minutes. *)
Definition PropagationTimeout : Z := 120 * Second.

Definition spec : ResourceData :=
  {| Id := ""; name := "default"; s3_bucket_name := "my-bucket";
     s3_key_prefix := None; s3_kms_key_arn := None; sns_topic_arn := None;
     snapshot_delivery_properties := [] |}.

(** The same, with a snapshot-delivery block in which nothing is set. *)
Definition spec_empty_block : ResourceData :=
  {| Id := ""; name := "default"; s3_bucket_name := "my-bucket";
     s3_key_prefix := None; s3_kms_key_arn := None; sns_topic_arn := None;
     snapshot_delivery_properties := [None] |}.

(** The same, with a key prefix and an hourly snapshot delivery. *)
Definition spec_hourly : ResourceData :=
  {| Id := ""; name := "default"; s3_bucket_name := "my-bucket";
     s3_key_prefix := Some "logs"; s3_kms_key_arn := None;
     sns_topic_arn := None;
     snapshot_delivery_properties :=
       [ Some {[ "delivery_frequency" := "One_Hour" ]} ] |}.

(** The state of an existing channel that delivers a snapshot every
    hour. *)
Definition hourly : ResourceData :=
  {| Id := "default"; name := "default"; s3_bucket_name := "my-bucket";
     s3_key_prefix := None; s3_kms_key_arn := None; sns_topic_arn := None;
     snapshot_delivery_properties :=
       [ Some {[ "delivery_frequency" := "One_Hour" ]} ] |}.

(** The channel as the service holds it, without a snapshot-delivery
    block. *)
Definition bare_channel : DeliveryChannel :=
  {| Name := Some "default"; S3BucketName := Some "my-bucket";
     S3KeyPrefix := None; S3KmsKeyArn := None; SnsTopicARN := None;
     ConfigSnapshotDeliveryProperties := None |}.

Definition policy_pending : RemoteError :=
  AwsError "InsufficientDeliveryPolicyException"
    "Insufficient delivery policy to s3 bucket".

Definition recorder_running : RemoteError :=
  AwsError "LastDeliveryChannelDeleteFailedException"
    "Failed to delete last specified delivery channel with name 'default', because there is a running configuration recorder.".

Definition access_denied : RemoteError :=
  AwsError "AccessDeniedException" "not authorized".

Definition start {Svc : Type} (x : ResourceData) (s : Svc) : State Svc :=
  {| d := x; conn := s; calls := [] |}.

Definition script puts describes deletes : Scripted.Scripts :=
  {| Scripted.puts := puts; Scripted.describes := describes;
     Scripted.deletes := deletes |}.

(** Describe reports the not-found code. *)
Definition gone : State Scripted.Scripts :=
  start hourly
    (script []
       [inl (AwsError "NoSuchDeliveryChannelException" "no such channel")]
       []).

(** Describe returns two channels for the one name. *)
Definition twins : State Scripted.Scripts :=
  start hourly
    (script [] [inr {| DeliveryChannels := [bare_channel; bare_channel] |}] []).

(** Describe returns the channel, without a snapshot-delivery block. *)
Definition found_bare : State Scripted.Scripts :=
  start spec
    (script [] [inr {| DeliveryChannels := [bare_channel] |}] []).

(** The recorder keeps running: every delete is blocked. *)
Definition blocked_delete : State Scripted.Scripts :=
  start hourly (script [] [] (repeat (Some recorder_running) 5)).

(** The recorder runs at the first delete, and the second is refused. *)
Definition refused_delete : State Scripted.Scripts :=
  start hourly (script [] [] [Some recorder_running; Some access_denied]).

(** The policy propagates just after the retry phase gave up. *)
Definition late_policy : State Scripted.Scripts :=
  start spec
    (script (repeat (Some policy_pending) 13 ++ [None])
       [inr {| DeliveryChannels := [bare_channel] |}] []).

(** The policy propagates after two attempts; describe finds nothing. *)
Definition written_unseen : State Scripted.Scripts :=
  start spec (script [Some policy_pending; Some policy_pending; None] [] []).

(** Two attempts wait for the policy, the third is refused. *)
Definition refused_put : State Scripted.Scripts :=
  start spec
    (script [Some policy_pending; Some policy_pending; Some access_denied]
       [] []).

(** The service holds the channel without a snapshot-delivery block, and
    the resource data still holds the hourly block. *)
Definition stale_block : State (gmap string DeliveryChannel) :=
  start hourly {[ "default" := bare_channel ]}.

End Sample.

(** ** Further concrete inputs *)

Module More.

(** A channel with a key prefix and an hourly snapshot delivery. *)
Definition hourly_channel : DeliveryChannel :=
  {| Name := Some "default"; S3BucketName := Some "my-bucket";
     S3KeyPrefix := Some "logs"; S3KmsKeyArn := None; SnsTopicARN := None;
     ConfigSnapshotDeliveryProperties :=
       Some {| DeliveryFrequency := Some "One_Hour" |} |}.

(** Describe is refused. *)
Definition refused_describe : State Scripted.Scripts :=
  Sample.start Sample.hourly
    (Sample.script [] [inl Sample.access_denied] []).

(** Describe returns the hourly channel. *)
Definition found_hourly : State Scripted.Scripts :=
  Sample.start Sample.spec
    (Sample.script [] [inr {| DeliveryChannels := [hourly_channel] |}] []).

(** The policy propagates after one attempt, and describe returns the
    hourly channel. *)
Definition written_and_seen : State Scripted.Scripts :=
  Sample.start Sample.spec
    (Sample.script [Some Sample.policy_pending; None]
       [inr {| DeliveryChannels := [hourly_channel] |}] []).

(** The put call succeeds at once and describe is refused. *)
Definition written_unreadable : State Scripted.Scripts :=
  Sample.start Sample.spec
    (Sample.script [None] [inl Sample.access_denied] []).

End More.

(** Every answer of a concrete list is retried. *)
Ltac all_retried :=
  repeat (constructor; [eexists; split; reflexivity|]); constructor.

(** * Properties *)

(** ** Substrings *)

Lemma prefix_append (p s : string) :
  String.prefix p s = true <-> exists t, s = p +:+ t.
Proof.
  revert s. induction p as [|a p IH]; intros s.
  - split; [intros _; exists s; reflexivity | destruct s; reflexivity].
  - destruct s as [|b s]; simpl.
    + split; [discriminate | intros [t Ht]; discriminate].
    + destruct (Ascii.ascii_dec a b) as [->|Hab].
      * split.
        -- intros H. apply IH in H as [t Ht]. exists t. now rewrite Ht.
        -- intros [t Ht]. apply IH. exists t. now inversion Ht.
      * split; [discriminate | intros [t Ht]].
        inversion Ht as [[Hb Hs]]. now destruct Hab.
Qed.

(** [Contains s substr] holds exactly when [substr] occurs in [s]. *)
Lemma Contains_spec (s substr : string) :
  Contains s substr = true <-> exists a b, s = a +:+ substr +:+ b.
Proof.
  induction s as [|c s IH]; cbn [Contains].
  - rewrite orb_false_r, prefix_append. split.
    + intros [t Ht]. exists "", t. exact Ht.
    + intros [a [b Hab]]. destruct a; simpl in Hab; [|discriminate].
      exists b. exact Hab.
  - rewrite orb_true_iff, prefix_append, IH. split.
    + intros [[t Ht] | [a [b Hab]]].
      * exists "", t. exact Ht.
      * exists (String c a), b. simpl. now rewrite Hab.
    + intros [a [b Hab]]. destruct a as [|c' a]; simpl in Hab.
      * left. exists b. exact Hab.
      * right. inversion Hab. exists a, b. reflexivity.
Qed.

Lemma Contains_empty (s : string) : Contains s "" = true.
Proof. apply Contains_spec. exists "", s. reflexivity. Qed.

(** ** The classification of remote errors *)

Lemma put_retryable_iff (e : RemoteError) :
  put_retryable e = true <->
  exists m, e = AwsError "InsufficientDeliveryPolicyException" m.
Proof.
  unfold put_retryable, isAWSErr. destruct e as [c m | t].
  - rewrite andb_true_iff, String.eqb_eq. split.
    + intros [-> _]. now exists m.
    + intros [m' H]. inversion H. split; [reflexivity | apply Contains_empty].
  - split; [discriminate | intros [m H]; discriminate].
Qed.

Lemma delete_retryable_iff (e : RemoteError) :
  delete_retryable e = true <->
  exists a b,
    e = AwsError ErrCodeLastDeliveryChannelDeleteFailedException
          (a +:+ "there is a running configuration recorder" +:+ b).
Proof.
  unfold delete_retryable, isAWSErr. destruct e as [c m | t].
  - rewrite andb_true_iff, String.eqb_eq, Contains_spec. split.
    + intros [-> [a [b ->]]]. now exists a, b.
    + intros [a [b H]]. inversion H. split; [reflexivity | now exists a, b].
  - split; [discriminate | intros [a [b H]]; discriminate].
Qed.

(** ** The retry phase *)

Lemma repeat_snoc {A : Type} (x : A) (n : nat) :
  repeat x n ++ [x] = repeat x (S n).
Proof. symmetry. apply repeat_cons. Qed.

Lemma advance_advance {Svc : Type} (st : State Svc) (s s' : Svc)
    (l l' : list Call) :
  advance (advance st s l) s' l' = advance st s' (l ++ l').
Proof. unfold advance. simpl. now rewrite app_assoc. Qed.

Lemma run_calls_S {Svc Req : Type}
    (op : Req -> Svc -> option RemoteError * Svc) (input : Req) (n : nat)
    (s : Svc) (r : option RemoteError) (s1 : Svc) :
  op input s = (r, s1) ->
  run_calls op input (S n) s =
  (r :: fst (run_calls op input n s1), snd (run_calls op input n s1)).
Proof.
  intros Hop. cbn [run_calls]. rewrite Hop.
  now destruct (run_calls op input n s1).
Qed.

Section RetryPhase.

Context {Svc Req : Type}.
Variable op : Req -> Svc -> option RemoteError * Svc.
Variable tag : Req -> Call.
Variable input : Req.
Variable classify : RemoteError -> bool.
Variable f : M Svc (option RetryError).

(** [f] issues one call and classifies its error. *)
Hypothesis f_calls : forall st,
  f st =
  let (r, s) := op input (conn st) in
  (match r with
   | None => None
   | Some e =>
       Some (if classify e then RetryableError (Remote e)
             else NonRetryableError (Remote e))
   end, advance st s [tag input]).

(** While the answers are retryable and the budget lasts, the policy
    runs again; when the budget is used up it reports the time-out. *)
Lemma retry_loop_exhausted (n : nat) : forall st rs s',
  run_calls op input (S n) (conn st) = (rs, s') ->
  Forall (retried classify) rs ->
  retry_loop n f st =
  (Some TimeoutError, advance st s' (repeat (tag input) (S n))).
Proof.
  induction n as [|n IH]; intros st rs s' Hrun Hall;
    destruct (op input (conn st)) as [r s1] eqn:Hop;
    rewrite (run_calls_S _ _ _ _ _ _ Hop) in Hrun;
    inversion Hrun; subst; clear Hrun;
    apply List.Forall_cons_iff in Hall as [[e [-> He]] Hall'];
    cbn [retry_loop]; rewrite f_calls, Hop, He;
    cbn [Retryable RetryableError].
  - reflexivity.
  - rewrite (IH (advance st s1 [tag input]) _ _ (surjective_pairing _) Hall').
    now rewrite advance_advance.
Qed.

(** The first answer that is a success or a terminal error ends the
    retry phase at once, with that answer. *)
Lemma retry_loop_settles (j : nat) : forall n st rs s1 r s',
  j <= n ->
  run_calls op input j (conn st) = (rs, s1) ->
  Forall (retried classify) rs ->
  op input s1 = (r, s') ->
  settled classify r ->
  retry_loop n f st =
  (Remote <$> r, advance st s' (repeat (tag input) (S j))).
Proof.
  induction j as [|j IH]; intros n st rs s1 r s' Hj Hrun Hall Hop Hr.
  - cbn [run_calls] in Hrun. inversion Hrun; subst.
    destruct n; cbn [retry_loop]; rewrite f_calls, Hop;
      destruct r as [e|]; cbn in Hr |- *; try rewrite Hr; reflexivity.
  - destruct (op input (conn st)) as [r0 s0] eqn:Hop0.
    rewrite (run_calls_S _ _ _ _ _ _ Hop0) in Hrun.
    inversion Hrun; subst; clear Hrun.
    apply List.Forall_cons_iff in Hall as [[e [-> He]] Hall'].
    destruct n as [|n]; [lia|].
    cbn [retry_loop]. rewrite f_calls, Hop0, He.
    cbn [Retryable RetryableError].
    rewrite (IH n (advance st s0 [tag input]) _ _ r s'
               ltac:(lia) (surjective_pairing _) Hall' Hop Hr).
    now rewrite advance_advance.
Qed.

(** Every run of the retry phase is one of the two: some [k] retryable
    answers, at most the budget, and then a settling answer; or as many
    retryable answers as the budget and the first run allow. *)
Lemma retry_loop_cases (n : nat) : forall st,
  (exists k rs s1 r s',
      k <= n /\ run_calls op input k (conn st) = (rs, s1) /\
      Forall (retried classify) rs /\ op input s1 = (r, s') /\
      settled classify r /\
      retry_loop n f st =
      (Remote <$> r, advance st s' (repeat (tag input) (S k)))) \/
  (exists rs s',
      run_calls op input (S n) (conn st) = (rs, s') /\
      Forall (retried classify) rs /\
      retry_loop n f st =
      (Some TimeoutError, advance st s' (repeat (tag input) (S n)))).
Proof.
  assert (Hsettled : forall m st r s1,
            op input (conn st) = (r, s1) -> settled classify r ->
            exists k rs s0 r' s',
              k <= m /\ run_calls op input k (conn st) = (rs, s0) /\
              Forall (retried classify) rs /\ op input s0 = (r', s') /\
              settled classify r' /\
              retry_loop m f st =
              (Remote <$> r', advance st s' (repeat (tag input) (S k)))).
  { intros m st r s1 Hop Hr. exists 0, [], (conn st), r, s1.
    split; [lia|]. split; [reflexivity|]. split; [constructor|].
    split; [exact Hop|]. split; [exact Hr|].
    apply (retry_loop_settles 0 m st [] (conn st));
      [lia | reflexivity | constructor | exact Hop | exact Hr]. }
  induction n as [|n IH]; intros st;
    destruct (op input (conn st)) as [[e|] s1] eqn:Hop;
    try (left; apply (Hsettled _ st None s1 Hop I));
    (destruct (classify e) eqn:He;
     [|left; apply (Hsettled _ st (Some e) s1 Hop He)]).
  - right. exists [Some e], s1.
    assert (Hrun : run_calls op input 1 (conn st) = ([Some e], s1))
      by (rewrite (run_calls_S _ _ _ _ _ _ Hop); reflexivity).
    assert (Hall : Forall (retried classify) [Some e])
      by (constructor; [now exists e | constructor]).
    split; [exact Hrun|]. split; [exact Hall|].
    exact (retry_loop_exhausted 0 st _ _ Hrun Hall).
  - assert (Hhead : retried classify (Some e)) by now exists e.
    destruct (IH (advance st s1 [tag input]))
      as [(k & rs & s2 & r & s' & Hk & Hrun & Hall & Hop' & Hr & _)
         |(rs & s' & Hrun & Hall & _)]; cbn [advance conn] in Hrun.
    + left. exists (S k), (Some e :: rs), s2, r, s'.
      assert (Hrun' : run_calls op input (S k) (conn st)
                      = (Some e :: rs, s2))
        by (rewrite (run_calls_S _ _ _ _ _ _ Hop), Hrun; reflexivity).
      assert (Hall' : Forall (retried classify) (Some e :: rs))
        by (constructor; assumption).
      split; [lia|]. split; [exact Hrun'|]. split; [exact Hall'|].
      split; [exact Hop'|]. split; [exact Hr|].
      apply (retry_loop_settles (S k) (S n) st (Some e :: rs) s2);
        [lia | exact Hrun' | exact Hall' | exact Hop' | exact Hr].
    + right. exists (Some e :: rs), s'.
      assert (Hrun' : run_calls op input (S (S n)) (conn st)
                      = (Some e :: rs, s'))
        by (rewrite (run_calls_S _ _ _ _ _ _ Hop), Hrun; reflexivity).
      assert (Hall' : Forall (retried classify) (Some e :: rs))
        by (constructor; assumption).
      split; [exact Hrun'|]. split; [exact Hall'|].
      exact (retry_loop_exhausted (S n) st _ _ Hrun' Hall').
Qed.

End RetryPhase.

(** ** The three resource functions, call by call *)

Section ResourceFacts.

Context {Svc : Type} {client : ConfigService Svc}.
Variable retries_within : Z -> nat.
Variable PropagationTimeout : Z.

#[local] Abbreviation Read := (resourceAwsConfigDeliveryChannelRead (client := client)).
#[local] Abbreviation Put :=
  (resourceAwsConfigDeliveryChannelPut (client := client)
     retries_within PropagationTimeout).
#[local] Abbreviation Delete :=
  (resourceAwsConfigDeliveryChannelDelete (client := client) retries_within).

Lemma put_attempt_calls (input : PutDeliveryChannelInput) (st : State Svc) :
  put_attempt input st =
  let (r, s) := PutDeliveryChannel input (conn st) in
  (match r with
   | None => None
   | Some e =>
       Some (if put_retryable e then RetryableError (Remote e)
             else NonRetryableError (Remote e))
   end, advance st s [CallPut input]).
Proof.
  unfold put_attempt, mbind, M_bind, conn_PutDeliveryChannel, conn_call,
    put_retryable.
  destruct (PutDeliveryChannel input (conn st)) as [[e|] s]; [|reflexivity].
  now destruct (isAWSErr _ _ _).
Qed.

Lemma delete_attempt_calls (input : DeleteDeliveryChannelInput)
    (st : State Svc) :
  delete_attempt input st =
  let (r, s) := DeleteDeliveryChannel input (conn st) in
  (match r with
   | None => None
   | Some e =>
       Some (if delete_retryable e then RetryableError (Remote e)
             else NonRetryableError (Remote e))
   end, advance st s [CallDelete input]).
Proof.
  unfold delete_attempt, mbind, M_bind, conn_DeleteDeliveryChannel,
    conn_call, delete_retryable.
  destruct (DeleteDeliveryChannel input (conn st)) as [[e|] s];
    [|reflexivity].
  now destruct (isAWSErr _ _ _).
Qed.

Lemma put_built_unfold (channel : DeliveryChannel) (st : State Svc) :
  put_built retries_within PropagationTimeout channel st =
  let input := {| PutInput_DeliveryChannel := channel |} in
  let (err, st1) :=
    retry_loop (retries_within PropagationTimeout) (put_attempt input) st in
  let (err, st2) :=
    if isResourceTimeoutError err then
      let (e, s) := PutDeliveryChannel input (conn st1) in
      (Remote <$> e, advance st1 s [CallPut input])
    else (err, st1) in
  match err with
  | Some e =>
      (Some (Errorf "Creating Delivery Channel failed: %s" [ArgError e]), st2)
  | None => Read (with_d (SetId (name (d st)) (d st2)) st2)
  end.
Proof.
  unfold put_built, Retry, mbind, M_bind, get_d.
  cbn zeta.
  destruct (retry_loop _ _ st) as [err st1].
  destruct (isResourceTimeoutError err).
  - unfold conn_PutDeliveryChannel, conn_call.
    destruct (PutDeliveryChannel _ (conn st1)) as [[e|] s]; reflexivity.
  - destruct err; reflexivity.
Qed.

(** Put when the channel is built. *)
Lemma Put_unfold (st : State Svc) (channel : DeliveryChannel) :
  putChannel (d st) = Some channel ->
  Put st = Some (put_built retries_within PropagationTimeout channel st).
Proof.
  intros Hch. unfold resourceAwsConfigDeliveryChannelPut. now rewrite Hch.
Qed.

Lemma Delete_unfold (st : State Svc) :
  Delete st =
  let input := {| DeliveryChannelName := Id (d st) |} in
  let (err, st1) :=
    retry_loop (retries_within (30 * Second)) (delete_attempt input) st in
  let (err, st2) :=
    if isResourceTimeoutError err then
      let (e, s) := DeleteDeliveryChannel input (conn st1) in
      (Remote <$> e, advance st1 s [CallDelete input])
    else (err, st1) in
  match err with
  | Some e =>
      (Some (Errorf "Unable to delete delivery channel: %s" [ArgError e]),
       st2)
  | None => (None, st2)
  end.
Proof.
  unfold resourceAwsConfigDeliveryChannelDelete, Retry, mbind, M_bind, get_d.
  cbn zeta.
  destruct (retry_loop _ _ st) as [err st1].
  destruct (isResourceTimeoutError err).
  - unfold conn_DeleteDeliveryChannel, conn_call.
    destruct (DeleteDeliveryChannel _ (conn st1)) as [[e|] s]; reflexivity.
  - destruct err; reflexivity.
Qed.

(** Put, when the retry phase settles after [j] retryable answers. *)
Lemma Put_settled (st : State Svc) channel (j : nat) rs s1 r s' :
  let input := {| PutInput_DeliveryChannel := channel |} in
  putChannel (d st) = Some channel ->
  j <= retries_within PropagationTimeout ->
  run_calls PutDeliveryChannel input j (conn st) = (rs, s1) ->
  Forall (retried put_retryable) rs ->
  PutDeliveryChannel input s1 = (r, s') ->
  settled put_retryable r ->
  Put st =
  Some
    match r with
    | Some e =>
        (Some (Errorf "Creating Delivery Channel failed: %s"
                 [ArgError (Remote e)]),
         advance st s' (repeat (CallPut input) (S j)))
    | None =>
        Read (with_d (SetId (name (d st)) (d st))
                (advance st s' (repeat (CallPut input) (S j))))
    end.
Proof.
  intros input Hch Hj Hrun Hall Hop Hr.
  rewrite (Put_unfold st channel Hch), put_built_unfold. cbn zeta.
  fold input.
  rewrite (retry_loop_settles PutDeliveryChannel CallPut input put_retryable
             (put_attempt input) (put_attempt_calls input)
             j _ st rs s1 r s' Hj Hrun Hall Hop Hr).
  destruct r; reflexivity.
Qed.

(** Put, when the retry phase uses up its budget: one more call. *)
Lemma Put_exhausted (st : State Svc) channel rs s1 r s' :
  let input := {| PutInput_DeliveryChannel := channel |} in
  let n := retries_within PropagationTimeout in
  putChannel (d st) = Some channel ->
  run_calls PutDeliveryChannel input (S n) (conn st) = (rs, s1) ->
  Forall (retried put_retryable) rs ->
  PutDeliveryChannel input s1 = (r, s') ->
  Put st =
  Some
    match r with
    | Some e =>
        (Some (Errorf "Creating Delivery Channel failed: %s"
                 [ArgError (Remote e)]),
         advance st s' (repeat (CallPut input) (S (S n))))
    | None =>
        Read (with_d (SetId (name (d st)) (d st))
                (advance st s' (repeat (CallPut input) (S (S n)))))
    end.
Proof.
  intros input n Hch Hrun Hall Hop.
  rewrite (Put_unfold st channel Hch), put_built_unfold. cbn zeta.
  fold input. fold n.
  rewrite (retry_loop_exhausted PutDeliveryChannel CallPut input put_retryable
             (put_attempt input) (put_attempt_calls input)
             n st rs s1 Hrun Hall).
  cbn [isResourceTimeoutError advance conn]. rewrite Hop.
  rewrite advance_advance, repeat_snoc.
  destruct r; reflexivity.
Qed.

(** Delete, when the retry phase settles after [j] retryable answers. *)
Lemma Delete_settled (st : State Svc) (j : nat) rs s1 r s' :
  let input := {| DeliveryChannelName := Id (d st) |} in
  j <= retries_within (30 * Second) ->
  run_calls DeleteDeliveryChannel input j (conn st) = (rs, s1) ->
  Forall (retried delete_retryable) rs ->
  DeleteDeliveryChannel input s1 = (r, s') ->
  settled delete_retryable r ->
  Delete st =
  (wrapped "Unable to delete delivery channel: %s" r,
   advance st s' (repeat (CallDelete input) (S j))).
Proof.
  intros input Hj Hrun Hall Hop Hr. rewrite Delete_unfold. cbn zeta.
  fold input.
  rewrite (retry_loop_settles DeleteDeliveryChannel CallDelete input
             delete_retryable (delete_attempt input)
             (delete_attempt_calls input)
             j _ st rs s1 r s' Hj Hrun Hall Hop Hr).
  destruct r; reflexivity.
Qed.

(** Delete, when the retry phase uses up its budget: one more call. *)
Lemma Delete_exhausted (st : State Svc) rs s1 r s' :
  let input := {| DeliveryChannelName := Id (d st) |} in
  let n := retries_within (30 * Second) in
  run_calls DeleteDeliveryChannel input (S n) (conn st) = (rs, s1) ->
  Forall (retried delete_retryable) rs ->
  DeleteDeliveryChannel input s1 = (r, s') ->
  Delete st =
  (wrapped "Unable to delete delivery channel: %s" r,
   advance st s' (repeat (CallDelete input) (S (S n)))).
Proof.
  intros input n Hrun Hall Hop. rewrite Delete_unfold. cbn zeta.
  fold input. fold n.
  rewrite (retry_loop_exhausted DeleteDeliveryChannel CallDelete input
             delete_retryable (delete_attempt input)
             (delete_attempt_calls input) n st rs s1 Hrun Hall).
  cbn [isResourceTimeoutError advance conn]. rewrite Hop.
  rewrite advance_advance, repeat_snoc.
  destruct r; reflexivity.
Qed.

(** Read, by the answer to its one describe call. *)
Lemma Read_unfold (st : State Svc) :
  Read st =
  let input := {| DeliveryChannelNames := [Id (d st)] |} in
  let (r, s) := DescribeDeliveryChannels input (conn st) in
  let st1 := advance st s [CallDescribe input] in
  match r with
  | inl (AwsError code m) =>
      if String.eqb code "NoSuchDeliveryChannelException"
      then (None, with_d (SetId "" (d st)) st1)
      else (Some (Errorf "Getting Delivery Channel failed: %s"
                    [ArgError (Remote (AwsError code m))]), st1)
  | inl (PlainError t) =>
      (Some (Errorf "Getting Delivery Channel failed: %s"
               [ArgError (Remote (PlainError t))]), st1)
  | inr out =>
      match DeliveryChannels out with
      | [] => (None, with_d (SetId "" (d st)) st1)
      | [channel] =>
          (None,
           with_d
             {| Id := Id (d st);
                name := deref (Name channel);
                s3_bucket_name := deref (S3BucketName channel);
                s3_key_prefix := S3KeyPrefix channel;
                s3_kms_key_arn := S3KmsKeyArn channel;
                sns_topic_arn := SnsTopicARN channel;
                snapshot_delivery_properties :=
                  match ConfigSnapshotDeliveryProperties channel with
                  | Some p => flattenConfigSnapshotDeliveryProperties p
                  | None => snapshot_delivery_properties (d st)
                  end |} st1)
      | _ :: _ :: _ =>
          (Some (Errorf
             "Received %d delivery channels under %s (expected exactly 1): %s"
             [ArgInt (List.length (DeliveryChannels out));
              ArgString (Id (d st));
              ArgChannels (DeliveryChannels out)]), st1)
      end
  end.
Proof.
  unfold resourceAwsConfigDeliveryChannelRead, mbind, M_bind, get_d,
    conn_DescribeDeliveryChannels, conn_call.
  cbn zeta.
  destruct (DescribeDeliveryChannels _ (conn st)) as [[[code m|t]|out] s].
  - destruct (String.eqb code _); reflexivity.
  - reflexivity.
  - destruct (DeliveryChannels out) as [|ch [|ch' rest]]; try reflexivity.
    cbn. destruct (ConfigSnapshotDeliveryProperties ch); reflexivity.
Qed.

(** Read issues exactly one describe call, for the stored identity. *)
Lemma Read_calls (st : State Svc) :
  calls (snd (Read st)) =
  calls st ++ [CallDescribe {| DeliveryChannelNames := [Id (d st)] |}].
Proof.
  rewrite Read_unfold. cbn zeta.
  destruct (DescribeDeliveryChannels _ (conn st)) as [[[code m|t]|out] s].
  - destruct (String.eqb code _); reflexivity.
  - reflexivity.
  - destruct (DeliveryChannels out) as [|ch [|ch' rest]]; reflexivity.
Qed.

Lemma Read_timeout_free (st : State Svc) : timeout_free (fst (Read st)).
Proof.
  rewrite Read_unfold. cbn zeta.
  destruct (DescribeDeliveryChannels _ (conn st)) as [[[code m|t]|out] s].
  - destruct (String.eqb code _); cbn; auto.
  - reflexivity.
  - destruct (DeliveryChannels out) as [|ch [|ch' rest]]; cbn; auto.
Qed.

(** Read when the channel is gone. *)
Lemma Read_gone (st : State Svc) r s :
  let input := {| DeliveryChannelNames := [Id (d st)] |} in
  DescribeDeliveryChannels input (conn st) = (r, s) ->
  (exists m, r = inl (AwsError "NoSuchDeliveryChannelException" m)) \/
  (exists out, r = inr out /\ DeliveryChannels out = []) ->
  Read st =
  (None, with_d (SetId "" (d st)) (advance st s [CallDescribe input])).
Proof.
  intros input Hdesc Hr. rewrite Read_unfold. cbn zeta. fold input.
  rewrite Hdesc. destruct Hr as [[m ->] | [out [-> Hout]]].
  - reflexivity.
  - now rewrite Hout.
Qed.

(** A successful put call, in the retry phase or as the final attempt, is
    followed by [SetId] and Read. *)
Lemma Put_succeeds (st : State Svc) channel (j : nat) rs s1 s' :
  let input := {| PutInput_DeliveryChannel := channel |} in
  putChannel (d st) = Some channel ->
  j <= S (retries_within PropagationTimeout) ->
  run_calls PutDeliveryChannel input j (conn st) = (rs, s1) ->
  Forall (retried put_retryable) rs ->
  PutDeliveryChannel input s1 = (None, s') ->
  Put st =
  Some (Read (with_d (SetId (name (d st)) (d st))
                (advance st s' (repeat (CallPut input) (S j))))).
Proof.
  intros input Hch Hj Hrun Hall Hop.
  destruct (Nat.eq_dec j (S (retries_within PropagationTimeout))) as [->|Hne].
  - exact (Put_exhausted st channel rs s1 None s' Hch Hrun Hall Hop).
  - exact (Put_settled st channel j rs s1 None s' Hch ltac:(lia)
             Hrun Hall Hop I).
Qed.

(** Every run of Put that builds the channel: some put calls, at most the
    budget and two, and then either the wrapped error of the last one, or
    Read. *)
Lemma Put_cases (st : State Svc) channel :
  let input := {| PutInput_DeliveryChannel := channel |} in
  putChannel (d st) = Some channel ->
  exists k s1,
    k <= S (retries_within PropagationTimeout) /\
    ((exists e,
         Put st =
         Some
           (Some (Errorf "Creating Delivery Channel failed: %s"
                    [ArgError (Remote e)]),
            advance st s1 (repeat (CallPut input) (S k)))) \/
     Put st =
     Some (Read (with_d (SetId (name (d st)) (d st))
                   (advance st s1 (repeat (CallPut input) (S k)))))).
Proof.
  intros input Hch.
  destruct (retry_loop_cases PutDeliveryChannel CallPut input put_retryable
              (put_attempt input) (put_attempt_calls input)
              (retries_within PropagationTimeout) st)
    as [(k & rs & s1 & r & s' & Hk & Hrun & Hall & Hop & Hr & _)
       |(rs & s1 & Hrun & Hall & _)].
  - exists k, s'. split; [lia|].
    rewrite (Put_settled st channel k rs s1 r s' Hch Hk Hrun Hall Hop Hr).
    destruct r as [e|]; [left; now exists e | now right].
  - destruct (PutDeliveryChannel input s1) as [r s'] eqn:Hop.
    exists (S (retries_within PropagationTimeout)), s'. split; [lia|].
    rewrite (Put_exhausted st channel rs s1 r s' Hch Hrun Hall Hop).
    destruct r as [e|]; [left; now exists e | now right].
Qed.

(** Put either panics, when the first block is [nil], or builds the
    channel. *)
Lemma Put_panics_iff (st : State Svc) :
  Put st = None <-> putChannel (d st) = None.
Proof.
  unfold resourceAwsConfigDeliveryChannelPut.
  destruct (putChannel (d st)); split; congruence.
Qed.

(** Every run of Delete: some delete calls, at most the budget and two, and
    the wrapped outcome of the last one. *)
Lemma Delete_cases (st : State Svc) :
  let input := {| DeliveryChannelName := Id (d st) |} in
  exists k s1 r,
    k <= S (retries_within (30 * Second)) /\
    Delete st =
    (wrapped "Unable to delete delivery channel: %s" r,
     advance st s1 (repeat (CallDelete input) (S k))).
Proof.
  intros input.
  destruct (retry_loop_cases DeleteDeliveryChannel CallDelete input
              delete_retryable (delete_attempt input)
              (delete_attempt_calls input)
              (retries_within (30 * Second)) st)
    as [(k & rs & s1 & r & s' & Hk & Hrun & Hall & Hop & Hr & _)
       |(rs & s1 & Hrun & Hall & _)].
  - exists k, s', r. split; [lia|].
    exact (Delete_settled st k rs s1 r s' Hk Hrun Hall Hop Hr).
  - destruct (DeleteDeliveryChannel input s1) as [r s'] eqn:Hop.
    exists (S (retries_within (30 * Second))), s', r. split; [lia|].
    exact (Delete_exhausted st rs s1 r s' Hrun Hall Hop).
Qed.

Lemma Put_timeout_free (st : State Svc) res :
  Put st = Some res -> timeout_free (fst res).
Proof.
  intros Hres.
  destruct (putChannel (d st)) as [channel|] eqn:Hch;
    [|apply Put_panics_iff in Hch; congruence].
  destruct (Put_cases st channel Hch) as (k & s1 & _ & [[e Hput] | Hput]);
    rewrite Hput in Hres; injection Hres as <-.
  - reflexivity.
  - apply Read_timeout_free.
Qed.

Lemma Delete_timeout_free (st : State Svc) : timeout_free (fst (Delete st)).
Proof.
  destruct (Delete_cases st) as (k & s1 & r & _ & ->).
  destruct r; reflexivity.
Qed.

(** ** The claims about Read *)

(** C5: when the describe call of Read reports the
    [NoSuchDeliveryChannelException] code, or returns no channel at all,
    Read returns no error and clears the stored identity; nothing else of
    the resource data changes, and exactly the one describe call was made. *)
Theorem Read_absent_clears_identity (st : State Svc) r s :
  let input := {| DeliveryChannelNames := [Id (d st)] |} in
  DescribeDeliveryChannels input (conn st) = (r, s) ->
  (exists m, r = inl (AwsError "NoSuchDeliveryChannelException" m)) \/
  (exists out, r = inr out /\ DeliveryChannels out = []) ->
  fst (Read st) = None /\
  Id (d (snd (Read st))) = "" /\
  Read st =
  (None, with_d (SetId "" (d st)) (advance st s [CallDescribe input])).
Proof.
  intros input Hdesc Hr.
  pose proof (Read_gone st r s Hdesc Hr) as H. fold input in H.
  rewrite H. repeat split.
Qed.

(** C6: when the describe call of Read returns more than one channel, Read
    fails with an error whose arguments are the number of channels, the
    requested name and the channels themselves; the resource data, and so
    the stored identity, is left as it was. *)
Theorem Read_rejects_several_channels (st : State Svc) out s :
  let input := {| DeliveryChannelNames := [Id (d st)] |} in
  DescribeDeliveryChannels input (conn st) = (inr out, s) ->
  1 < List.length (DeliveryChannels out) ->
  Read st =
  (Some (Errorf
     "Received %d delivery channels under %s (expected exactly 1): %s"
     [ArgInt (List.length (DeliveryChannels out));
      ArgString (Id (d st));
      ArgChannels (DeliveryChannels out)]),
   advance st s [CallDescribe input]) /\
  d (snd (Read st)) = d st.
Proof.
  intros input Hdesc Hlen. rewrite Read_unfold. cbn zeta. fold input.
  rewrite Hdesc.
  destruct (DeliveryChannels out) as [|ch [|ch' rest]]; cbn in Hlen;
    [lia | lia |].
  split; reflexivity.
Qed.

(** C3, as the code has it: when Read observes exactly one channel, it
    returns no error, and the snapshot-delivery blocks of the resource data
    are the flattened block of the service when the service reports one,
    and otherwise the blocks that the resource data held before the Read;
    so with no block on the remote side and none held before, none is held
    after, and no block with empty fields is written. *)
Theorem Read_copies_reported_block (st : State Svc) channel s :
  let input := {| DeliveryChannelNames := [Id (d st)] |} in
  DescribeDeliveryChannels input (conn st) =
    (inr {| DeliveryChannels := [channel] |}, s) ->
  fst (Read st) = None /\
  snapshot_delivery_properties (d (snd (Read st))) =
    match ConfigSnapshotDeliveryProperties channel with
    | Some p => flattenConfigSnapshotDeliveryProperties p
    | None => snapshot_delivery_properties (d st)
    end /\
  (ConfigSnapshotDeliveryProperties channel = None ->
   snapshot_delivery_properties (d st) = [] ->
   snapshot_delivery_properties (d (snd (Read st))) = []).
Proof.
  intros input Hdesc. rewrite Read_unfold. cbn zeta. fold input.
  rewrite Hdesc. cbn. repeat split.
  intros -> Hnone. exact Hnone.
Qed.

(** ** The claims about Put *)

(** The channel that Put builds, field by field, and when it builds
    none. *)
Lemma putChannel_fields (x : ResourceData) :
  putChannel x =
  match snapshot_delivery_properties x with
  | [] => Some (channel_of x None)
  | None :: _ => None
  | Some block :: _ =>
      Some (channel_of x
              match block !! "delivery_frequency" with
              | Some v => Some {| DeliveryFrequency := Some v |}
              | None => None
              end)
  end.
Proof.
  unfold putChannel, channel_of, nonzero, GetOk_string, GetOk_blocks,
    aws_String.
  destruct (s3_key_prefix x) as [v1|], (s3_kms_key_arn x) as [v2|],
    (sns_topic_arn x) as [v3|];
    try destruct (String.eqb v1 ""); try destruct (String.eqb v2 "");
    try destruct (String.eqb v3 "");
    destruct (snapshot_delivery_properties x) as [|[block|] ?];
    try destruct (block !! "delivery_frequency"); reflexivity.
Qed.

(** C4: once the channel is built, a put call that succeeds, after any
    number of retryable answers within the budget or as the final attempt
    after the time-out, is followed by [SetId] with the name and by Read,
    whose result Put returns; and whenever Put returns no error, its last
    remote call is the describe call of Read for that name. *)
Theorem Put_success_reads_back :
  (forall (st : State Svc) channel (j : nat) rs s1 s',
     let input := {| PutInput_DeliveryChannel := channel |} in
     putChannel (d st) = Some channel ->
     j <= S (retries_within PropagationTimeout) ->
     run_calls PutDeliveryChannel input j (conn st) = (rs, s1) ->
     Forall (retried put_retryable) rs ->
     PutDeliveryChannel input s1 = (None, s') ->
     Put st =
     Some (Read (with_d (SetId (name (d st)) (d st))
                   (advance st s' (repeat (CallPut input) (S j)))))) /\
  (forall (st : State Svc) res,
     Put st = Some res ->
     fst res = None ->
     exists channel k s1,
       putChannel (d st) = Some channel /\
       res =
       Read (with_d (SetId (name (d st)) (d st))
               (advance st s1
                  (repeat (CallPut {| PutInput_DeliveryChannel := channel |})
                     (S k)))) /\
       calls (snd res) =
       calls st
       ++ repeat (CallPut {| PutInput_DeliveryChannel := channel |}) (S k)
       ++ [CallDescribe {| DeliveryChannelNames := [name (d st)] |}]).
Proof.
  split.
  - intros st channel j rs s1 s' input. apply Put_succeeds.
  - intros st res Hres Hnone.
    destruct (putChannel (d st)) as [channel|] eqn:Hch;
      [|apply Put_panics_iff in Hch; congruence].
    destruct (Put_cases st channel Hch) as (k & s1 & _ & [[e Hput] | Hput]);
      rewrite Hput in Hres; injection Hres as <-.
    + discriminate.
    + exists channel, k, s1. split; [reflexivity|]. split; [reflexivity|].
      rewrite Read_calls. cbn [with_d advance calls d SetId Id].
      now rewrite <- app_assoc.
Qed.

(** C8: [put_attempt] classifies as retryable exactly the errors that carry
    the [InsufficientDeliveryPolicyException] code; on the first answer
    with any other error Put returns that error wrapped, the failed call is
    its last remote call, and the resource data is left as it was. *)
Theorem Put_terminal_error_fails_at_once :
  (forall e,
     put_retryable e = true <->
     exists m, e = AwsError "InsufficientDeliveryPolicyException" m) /\
  (forall (st : State Svc) channel (j : nat) rs s1 e s',
     let input := {| PutInput_DeliveryChannel := channel |} in
     putChannel (d st) = Some channel ->
     j <= retries_within PropagationTimeout ->
     run_calls PutDeliveryChannel input j (conn st) = (rs, s1) ->
     Forall (retried put_retryable) rs ->
     PutDeliveryChannel input s1 = (Some e, s') ->
     (forall m, e <> AwsError "InsufficientDeliveryPolicyException" m) ->
     Put st =
     Some
       (Some (Errorf "Creating Delivery Channel failed: %s"
                [ArgError (Remote e)]),
        advance st s' (repeat (CallPut input) (S j)))).
Proof.
  split; [exact put_retryable_iff|].
  intros st channel j rs s1 e s' input Hch Hj Hrun Hall Hop He.
  assert (Hterm : put_retryable e = false).
  { destruct (put_retryable e) eqn:Hc; [|reflexivity].
    apply put_retryable_iff in Hc as [m ->]. now destruct (He m). }
  exact (Put_settled st channel j rs s1 (Some e) s' Hch Hj Hrun Hall Hop
           Hterm).
Qed.

(** C10: when a put call succeeds and the describe call of the read-back
    reports the [NoSuchDeliveryChannelException] code or returns no
    channel, Put returns no error and leaves the stored identity empty;
    the describe call is made once and nothing is retried. *)
Theorem Put_reports_absent_after_write (st : State Svc) channel (j : nat)
    rs s1 s' r s'' :
  let input := {| PutInput_DeliveryChannel := channel |} in
  let describe := {| DeliveryChannelNames := [name (d st)] |} in
  putChannel (d st) = Some channel ->
  j <= S (retries_within PropagationTimeout) ->
  run_calls PutDeliveryChannel input j (conn st) = (rs, s1) ->
  Forall (retried put_retryable) rs ->
  PutDeliveryChannel input s1 = (None, s') ->
  DescribeDeliveryChannels describe s' = (r, s'') ->
  (exists m, r = inl (AwsError "NoSuchDeliveryChannelException" m)) \/
  (exists out, r = inr out /\ DeliveryChannels out = []) ->
  Put st =
  Some
    (None,
     with_d (SetId "" (d st))
       (advance st s''
          (repeat (CallPut input) (S j) ++ [CallDescribe describe]))).
Proof.
  intros input describe Hch Hj Hrun Hall Hop Hdesc Hr.
  rewrite (Put_succeeds st channel j rs s1 s' Hch Hj Hrun Hall Hop).
  fold input.
  rewrite (Read_gone
             (with_d (SetId (name (d st)) (d st))
                (advance st s' (repeat (CallPut input) (S j))))
             r s'' Hdesc Hr).
  unfold with_d, advance. cbn [d conn calls SetId Id name s3_bucket_name
    s3_key_prefix s3_kms_key_arn sns_topic_arn snapshot_delivery_properties].
  fold describe. now rewrite <- app_assoc.
Qed.

(** ** The claims about the two-phase retry *)

(** C1: for Put, once the channel is built, and for Delete, when every run
    of the retry phase (the first one and as many re-runs as the timeout
    allows) gets a retryable answer, exactly one more call is made; its
    outcome is what the function goes on with, success being followed by
    [SetId] and Read in Put, and an error being returned wrapped; the
    time-out itself is never returned. *)
Theorem timeout_then_one_final_attempt :
  (forall (st : State Svc) channel rs s1 r s',
     let input := {| PutInput_DeliveryChannel := channel |} in
     let n := retries_within PropagationTimeout in
     let st' :=
       advance st s' (repeat (CallPut input) (S n) ++ [CallPut input]) in
     putChannel (d st) = Some channel ->
     run_calls PutDeliveryChannel input (S n) (conn st) = (rs, s1) ->
     Forall (retried put_retryable) rs ->
     PutDeliveryChannel input s1 = (r, s') ->
     Put st =
     Some
       match r with
       | Some e =>
           (Some (Errorf "Creating Delivery Channel failed: %s"
                    [ArgError (Remote e)]), st')
       | None => Read (with_d (SetId (name (d st)) (d st)) st')
       end /\
     (forall res, Put st = Some res -> timeout_free (fst res))) /\
  (forall (st : State Svc) rs s1 r s',
     let input := {| DeliveryChannelName := Id (d st) |} in
     let n := retries_within (30 * Second) in
     let st' :=
       advance st s'
         (repeat (CallDelete input) (S n) ++ [CallDelete input]) in
     run_calls DeleteDeliveryChannel input (S n) (conn st) = (rs, s1) ->
     Forall (retried delete_retryable) rs ->
     DeleteDeliveryChannel input s1 = (r, s') ->
     Delete st =
     (wrapped "Unable to delete delivery channel: %s" r, st') /\
     timeout_free (fst (Delete st))).
Proof.
  split.
  - intros st channel rs s1 r s' input n st' Hch Hrun Hall Hop.
    split; [|apply Put_timeout_free].
    unfold st'. rewrite repeat_snoc.
    exact (Put_exhausted st channel rs s1 r s' Hch Hrun Hall Hop).
  - intros st rs s1 r s' input n st' Hrun Hall Hop.
    split; [|apply Delete_timeout_free].
    unfold st'. rewrite repeat_snoc.
    exact (Delete_exhausted st rs s1 r s' Hrun Hall Hop).
Qed.

(** C7: Delete hands its delete call to the retry policy with a timeout of
    thirty seconds.  An answer is retried exactly when it is an error with
    the [LastDeliveryChannelDeleteFailedException] code whose message
    contains "there is a running configuration recorder"; the first answer
    that is not ends the retry phase with no further call, and no run makes
    more calls than the thirty-second budget allows, plus the final one. *)
Theorem Delete_retries_while_recorder_runs :
  (forall e,
     delete_retryable e = true <->
     exists a b,
       e = AwsError ErrCodeLastDeliveryChannelDeleteFailedException
             (a +:+ "there is a running configuration recorder" +:+ b)) /\
  (forall (st : State Svc) (j : nat) rs s1 r s',
     let input := {| DeliveryChannelName := Id (d st) |} in
     j <= retries_within (30 * Second) ->
     run_calls DeleteDeliveryChannel input j (conn st) = (rs, s1) ->
     Forall (retried delete_retryable) rs ->
     DeleteDeliveryChannel input s1 = (r, s') ->
     settled delete_retryable r ->
     Delete st =
     (wrapped "Unable to delete delivery channel: %s" r,
      advance st s' (repeat (CallDelete input) (S j)))) /\
  (forall st : State Svc,
     let input := {| DeliveryChannelName := Id (d st) |} in
     exists k s1 r,
       k <= S (retries_within (30 * Second)) /\
       Delete st =
       (wrapped "Unable to delete delivery channel: %s" r,
        advance st s1 (repeat (CallDelete input) (S k)))).
Proof.
  split; [exact delete_retryable_iff|]. split.
  - intros st j rs s1 r s' input. apply Delete_settled.
  - exact Delete_cases.
Qed.

End ResourceFacts.

(** ** Put against the echoing service *)

Lemma nonzero_nonzero (a : option string) : nonzero (nonzero a) = nonzero a.
Proof.
  destruct a as [v|]; [|reflexivity]. cbn.
  destruct (String.eqb v "") eqn:Hv; [reflexivity|]. cbn. now rewrite Hv.
Qed.

Lemma nonzero_set (a : option string) : a <> Some "" -> nonzero a = a.
Proof.
  destruct a as [v|]; [|reflexivity]. intros Hne. cbn.
  destruct (String.eqb v "") eqn:Hv; [|reflexivity].
  apply String.eqb_eq in Hv. congruence.
Qed.

Lemma nonzero_not_empty (a : option string) : nonzero a <> Some "".
Proof.
  destruct a as [v|]; [|discriminate]. cbn.
  destruct (String.eqb v "") eqn:Hv; [discriminate|].
  apply String.eqb_neq in Hv. congruence.
Qed.

(** A channel that is built carries the name and the bucket, and its
    optional strings are the set ones. *)
Lemma putChannel_strings (x : ResourceData) (channel : DeliveryChannel) :
  putChannel x = Some channel ->
  Name channel = Some (name x) /\
  S3BucketName channel = Some (s3_bucket_name x) /\
  S3KeyPrefix channel = nonzero (s3_key_prefix x) /\
  S3KmsKeyArn channel = nonzero (s3_kms_key_arn x) /\
  SnsTopicARN channel = nonzero (sns_topic_arn x).
Proof.
  rewrite putChannel_fields.
  destruct (snapshot_delivery_properties x) as [|[block|] ?];
    [| |discriminate]; intros [= <-]; repeat split.
Qed.

Lemma putChannel_echoed (x : ResourceData) (channel : DeliveryChannel) :
  putChannel x = Some channel ->
  putChannel (echoed x channel) = Some channel.
Proof.
  intros Hch. destruct (putChannel_strings x channel Hch)
    as (_ & _ & Hp & Hk & Ht).
  rewrite putChannel_fields in Hch |- *. unfold echoed, channel_of.
  cbn [name s3_bucket_name s3_key_prefix s3_kms_key_arn sns_topic_arn
       snapshot_delivery_properties].
  rewrite Hp, Hk, Ht, !nonzero_nonzero.
  destruct (snapshot_delivery_properties x) as [|[block|] rest] eqn:Hs;
    [| |discriminate].
  - injection Hch as <-. reflexivity.
  - destruct (block !! "delivery_frequency") as [v|] eqn:Hv;
      injection Hch as <-; cbn.
    + now rewrite lookup_singleton_eq.
    + now rewrite Hv.
Qed.

Lemma echoed_echoed (x : ResourceData) (channel : DeliveryChannel) :
  echoed (echoed x channel) channel = echoed x channel.
Proof.
  unfold echoed.
  cbn [name s3_bucket_name s3_key_prefix s3_kms_key_arn sns_topic_arn
       snapshot_delivery_properties].
  now destruct (ConfigSnapshotDeliveryProperties channel).
Qed.

(** Put against the echoing service, once the channel is built: one put
    call, one describe call, no error, and the resource data that echoes
    what was sent. *)
Lemma Echo_Put (rw : Z -> nat) (pt : Z)
    (st : State (gmap string DeliveryChannel)) (channel : DeliveryChannel) :
  putChannel (d st) = Some channel ->
  resourceAwsConfigDeliveryChannelPut (client := Echo.service) rw pt st =
  Some
    (None,
     {| d := echoed (d st) channel;
        conn := <[name (d st) := channel]> (conn st);
        calls := calls st ++
          [CallPut {| PutInput_DeliveryChannel := channel |};
           CallDescribe {| DeliveryChannelNames := [name (d st)] |}] |}).
Proof.
  intros Hch.
  destruct (putChannel_strings (d st) channel Hch) as (Hname & Hbucket & _).
  rewrite (Put_succeeds (client := Echo.service) rw pt st channel 0 []
             (conn st) (<[name (d st) := channel]> (conn st)) Hch);
    [| lia | reflexivity | constructor
     | cbn [PutDeliveryChannel Echo.service]; unfold Echo.put;
       cbn [PutInput_DeliveryChannel]; now rewrite Hname].
  f_equal. rewrite Read_unfold.
  cbn [DescribeDeliveryChannels Echo.service Echo.describe with_d advance
       d conn calls SetId Id DeliveryChannelNames omap list_omap].
  rewrite lookup_insert_eq.
  cbn [DeliveryChannels repeat].
  unfold echoed, with_d, advance. cbn [d conn calls].
  rewrite <- app_assoc. cbn [app].
  rewrite Hname, Hbucket.
  cbn [deref default SetId Id name s3_bucket_name
    s3_key_prefix s3_kms_key_arn sns_topic_arn snapshot_delivery_properties].
  reflexivity.
Qed.

(** ** The claims at concrete inputs *)

(** C2, at resource data with a snapshot-delivery block in which nothing
    is set: the type assertion of line 93 panics on the [nil] element, so
    Put builds no channel, makes no call and returns nothing, whatever the
    service and the retry budget. *)
Theorem Put_panics_on_a_block_with_nothing_set :
  snapshot_delivery_properties Sample.spec_empty_block = [None] /\
  putChannel Sample.spec_empty_block = None /\
  forall (Svc : Type) (client : ConfigService Svc) (rw : Z -> nat) (pt : Z)
         (s : Svc) (log : list Call),
    resourceAwsConfigDeliveryChannelPut (client := client) rw pt
      {| d := Sample.spec_empty_block; conn := s; calls := log |} = None.
Proof.
  split; [reflexivity|]. split; [reflexivity|].
  intros Svc client rw pt s log. apply Put_panics_iff. reflexivity.
Qed.

(** C9, at the same resource data against the echoing service: already the
    first Put panics and returns neither a state nor [nil], where the same
    resource data without the block is put and read back. *)
Theorem Echo_upsert_panics_on_a_block_with_nothing_set
    (rw : Z -> nat) (pt : Z) (store : gmap string DeliveryChannel) :
  resourceAwsConfigDeliveryChannelPut (client := Echo.service) rw pt
    (Sample.start Sample.spec_empty_block store) = None /\
  exists st,
    resourceAwsConfigDeliveryChannelPut (client := Echo.service) rw pt
      (Sample.start Sample.spec store) = Some (None, st).
Proof.
  split.
  - apply Put_panics_iff. reflexivity.
  - eexists. apply (Echo_Put rw pt (Sample.start Sample.spec store)).
    reflexivity.
Qed.

(** C3, the claim as stated fails: Read observes exactly one channel, which
    carries no snapshot-delivery block, and the resource data still holds
    the hourly block it held before. *)
Lemma Read_keeps_the_block_held_before :
  DescribeDeliveryChannels (ConfigService := Echo.service)
    {| DeliveryChannelNames := [Id (d Sample.stale_block)] |}
    (conn Sample.stale_block) =
    (inr {| DeliveryChannels := [Sample.bare_channel] |},
     conn Sample.stale_block) /\
  ConfigSnapshotDeliveryProperties Sample.bare_channel = None /\
  fst (resourceAwsConfigDeliveryChannelRead (client := Echo.service)
         Sample.stale_block) = None /\
  snapshot_delivery_properties
    (d (snd (resourceAwsConfigDeliveryChannelRead (client := Echo.service)
               Sample.stale_block))) =
    [ Some {[ "delivery_frequency" := "One_Hour" ]} ] /\
  snapshot_delivery_properties
    (d (snd (resourceAwsConfigDeliveryChannelRead (client := Echo.service)
               Sample.stale_block))) <> [].
Proof.
  assert (Hkept :
    snapshot_delivery_properties
      (d (snd (resourceAwsConfigDeliveryChannelRead
                 (client := Echo.service) Sample.stale_block))) =
    [ Some {[ "delivery_frequency" := "One_Hour" ]} ])
    by (vm_compute; reflexivity).
  repeat split; try (vm_compute; reflexivity).
  rewrite Hkept. discriminate.
Qed.

(** C5 at [Sample.gone]: describe reports the not-found code. *)
Lemma Read_absent_clears_identity_witness :
  DescribeDeliveryChannels (ConfigService := Scripted.service)
    {| DeliveryChannelNames := [Id (d Sample.gone)] |} (conn Sample.gone) =
    (inl (AwsError "NoSuchDeliveryChannelException" "no such channel"),
     Sample.script [] [] []) /\
  fst (resourceAwsConfigDeliveryChannelRead (client := Scripted.service)
         Sample.gone) = None /\
  Id (d (snd (resourceAwsConfigDeliveryChannelRead
                (client := Scripted.service) Sample.gone))) = "".
Proof.
  assert (H1 : DescribeDeliveryChannels (ConfigService := Scripted.service)
                 {| DeliveryChannelNames := [Id (d Sample.gone)] |}
                 (conn Sample.gone) =
               (inl (AwsError "NoSuchDeliveryChannelException"
                       "no such channel"), Sample.script [] [] []))
    by reflexivity.
  split; [exact H1|].
  destruct (Read_absent_clears_identity (client := Scripted.service)
              Sample.gone _ _ H1
              (or_introl (ex_intro _ "no such channel" eq_refl)))
    as (Ha & Hb & _).
  split; assumption.
Defined.

(** C6 at [Sample.twins]: describe returns two channels. *)
Lemma Read_rejects_several_channels_witness :
  fst (resourceAwsConfigDeliveryChannelRead (client := Scripted.service)
         Sample.twins) =
  Some (Errorf
     "Received %d delivery channels under %s (expected exactly 1): %s"
     [ArgInt 2; ArgString "default";
      ArgChannels [Sample.bare_channel; Sample.bare_channel]]) /\
  d (snd (resourceAwsConfigDeliveryChannelRead (client := Scripted.service)
            Sample.twins)) = Sample.hourly.
Proof.
  destruct (Read_rejects_several_channels (client := Scripted.service)
              Sample.twins
              {| DeliveryChannels :=
                   [Sample.bare_channel; Sample.bare_channel] |}
              (Sample.script [] [] []) eq_refl (le_n 2))
    as (Ha & Hb).
  split; [now rewrite Ha | exact Hb].
Defined.

(** C3 at [Sample.found_bare]: no block before, none reported, none
    after. *)
Lemma Read_copies_reported_block_witness :
  snapshot_delivery_properties
    (d (snd (resourceAwsConfigDeliveryChannelRead
               (client := Scripted.service) Sample.found_bare))) = [].
Proof.
  destruct (Read_copies_reported_block (client := Scripted.service)
              Sample.found_bare Sample.bare_channel
              (Sample.script [] [] []) eq_refl)
    as (_ & _ & Hc).
  exact (Hc eq_refl eq_refl).
Defined.

(** C10 at [Sample.written_unseen]: the third put call succeeds and the
    describe call finds nothing. *)
Lemma Put_reports_absent_after_write_witness :
  resourceAwsConfigDeliveryChannelPut (client := Scripted.service)
    Sample.retries_within Sample.PropagationTimeout Sample.written_unseen =
  Some
    (None,
     with_d (SetId "" (d Sample.written_unseen))
       (advance Sample.written_unseen (Sample.script [] [] [])
          (repeat (CallPut {| PutInput_DeliveryChannel :=
                                Sample.bare_channel |}) 3
           ++ [CallDescribe
                 {| DeliveryChannelNames :=
                      [name (d Sample.written_unseen)] |}]))).
Proof.
  exact (Put_reports_absent_after_write (client := Scripted.service)
           Sample.retries_within Sample.PropagationTimeout
           Sample.written_unseen Sample.bare_channel 2
           [Some Sample.policy_pending; Some Sample.policy_pending]
           (Sample.script [None] [] [])
           (Sample.script [] [] [])
           (inr {| DeliveryChannels := [] |})
           (Sample.script [] [] [])
           eq_refl
           ltac:(vm_compute; lia)
           eq_refl
           ltac:(all_retried)
           eq_refl
           eq_refl
           (or_intror (ex_intro _ {| DeliveryChannels := [] |}
                         (conj eq_refl eq_refl)))).
Defined.

(** C4 at [Sample.late_policy]: the final attempt succeeds, and Read
    follows. *)
Lemma Put_success_reads_back_witness :
  resourceAwsConfigDeliveryChannelPut (client := Scripted.service)
    Sample.retries_within Sample.PropagationTimeout Sample.late_policy =
  Some
    (resourceAwsConfigDeliveryChannelRead (client := Scripted.service)
       (with_d (SetId (name (d Sample.late_policy)) (d Sample.late_policy))
          (advance Sample.late_policy
             (Sample.script []
                [inr {| DeliveryChannels := [Sample.bare_channel] |}] [])
             (repeat (CallPut {| PutInput_DeliveryChannel :=
                                   Sample.bare_channel |}) 14)))).
Proof.
  exact (proj1 (Put_success_reads_back (client := Scripted.service)
                  Sample.retries_within Sample.PropagationTimeout)
           Sample.late_policy Sample.bare_channel 13
           (repeat (Some Sample.policy_pending) 13)
           (Sample.script [None]
              [inr {| DeliveryChannels := [Sample.bare_channel] |}] [])
           (Sample.script []
              [inr {| DeliveryChannels := [Sample.bare_channel] |}] [])
           eq_refl
           ltac:(vm_compute; lia)
           ltac:(vm_compute; reflexivity)
           ltac:(all_retried)
           eq_refl).
Defined.

(** C8 at [Sample.refused_put]: two retryable answers, then a refusal. *)
Lemma Put_terminal_error_fails_at_once_witness :
  resourceAwsConfigDeliveryChannelPut (client := Scripted.service)
    Sample.retries_within Sample.PropagationTimeout Sample.refused_put =
  Some
    (Some (Errorf "Creating Delivery Channel failed: %s"
             [ArgError (Remote Sample.access_denied)]),
     advance Sample.refused_put (Sample.script [] [] [])
       (repeat (CallPut {| PutInput_DeliveryChannel :=
                             Sample.bare_channel |}) 3)).
Proof.
  exact (proj2 (Put_terminal_error_fails_at_once (client := Scripted.service)
                  Sample.retries_within Sample.PropagationTimeout)
           Sample.refused_put Sample.bare_channel 2
           [Some Sample.policy_pending; Some Sample.policy_pending]
           (Sample.script [Some Sample.access_denied] [] [])
           Sample.access_denied
           (Sample.script [] [] [])
           eq_refl
           ltac:(vm_compute; lia)
           eq_refl
           ltac:(all_retried)
           eq_refl
           ltac:(intros m; discriminate)).
Defined.

(** C7 at [Sample.refused_delete]: one retryable answer, then a refusal. *)
Lemma Delete_retries_while_recorder_runs_witness :
  resourceAwsConfigDeliveryChannelDelete (client := Scripted.service)
    Sample.retries_within Sample.refused_delete =
  (Some (Errorf "Unable to delete delivery channel: %s"
           [ArgError (Remote Sample.access_denied)]),
   advance Sample.refused_delete (Sample.script [] [] [])
     (repeat (CallDelete {| DeliveryChannelName := "default" |}) 2)).
Proof.
  apply (proj1 (proj2 (Delete_retries_while_recorder_runs
                         (client := Scripted.service)
                         Sample.retries_within))
           Sample.refused_delete 1
           [Some Sample.recorder_running]
           (Sample.script [] [] [Some Sample.access_denied])
           (Some Sample.access_denied));
    [ vm_compute; lia | reflexivity | all_retried | reflexivity
    | reflexivity ].
Defined.

(** C1 at [Sample.blocked_delete] and [Sample.late_policy]: the blocked
    delete calls use up the thirty seconds and one more is made, whose
    error is returned; the put calls use up the propagation timeout and
    the one after succeeds, so Read follows. *)
Lemma timeout_then_one_final_attempt_witness :
  (let st := Sample.blocked_delete in
   let input := {| DeliveryChannelName := Id (d st) |} in
   let n := Sample.retries_within (30 * Second) in
   resourceAwsConfigDeliveryChannelDelete (client := Scripted.service)
     Sample.retries_within st =
   (wrapped "Unable to delete delivery channel: %s"
      (Some Sample.recorder_running),
    advance st (Sample.script [] [] [])
      (repeat (CallDelete input) (S n) ++ [CallDelete input]))) /\
  (let st := Sample.late_policy in
   let input := {| PutInput_DeliveryChannel := Sample.bare_channel |} in
   let n := Sample.retries_within Sample.PropagationTimeout in
   resourceAwsConfigDeliveryChannelPut (client := Scripted.service)
     Sample.retries_within Sample.PropagationTimeout st =
   Some
     (resourceAwsConfigDeliveryChannelRead (client := Scripted.service)
        (with_d (SetId (name (d st)) (d st))
           (advance st
              (Sample.script []
                 [inr {| DeliveryChannels := [Sample.bare_channel] |}] [])
              (repeat (CallPut input) (S n) ++ [CallPut input]))))).
Proof.
  split.
  - exact (proj1
             (proj2 (timeout_then_one_final_attempt
                       (client := Scripted.service)
                       Sample.retries_within Sample.PropagationTimeout)
                Sample.blocked_delete
                (repeat (Some Sample.recorder_running) 4)
                (Sample.script [] [] [Some Sample.recorder_running])
                (Some Sample.recorder_running)
                (Sample.script [] [] [])
                ltac:(vm_compute; reflexivity)
                ltac:(all_retried)
                ltac:(vm_compute; reflexivity))).
  - exact (proj1
             (proj1 (timeout_then_one_final_attempt
                       (client := Scripted.service)
                       Sample.retries_within Sample.PropagationTimeout)
                Sample.late_policy Sample.bare_channel
                (repeat (Some Sample.policy_pending) 13)
                (Sample.script [None]
                   [inr {| DeliveryChannels := [Sample.bare_channel] |}] [])
                None
                (Sample.script []
                   [inr {| DeliveryChannels := [Sample.bare_channel] |}] [])
                eq_refl
                ltac:(vm_compute; reflexivity)
                ltac:(all_retried)
                ltac:(vm_compute; reflexivity))).
Defined.

(** * Further properties of the three functions *)

Section MoreFacts.

Context {Svc : Type} {client : ConfigService Svc}.
Variable retries_within : Z -> nat.
Variable PropagationTimeout : Z.

#[local] Abbreviation Read :=
  (resourceAwsConfigDeliveryChannelRead (client := client)).
#[local] Abbreviation Put :=
  (resourceAwsConfigDeliveryChannelPut (client := client)
     retries_within PropagationTimeout).
#[local] Abbreviation Delete :=
  (resourceAwsConfigDeliveryChannelDelete (client := client) retries_within).

(** ** Read *)

(** X1: when the describe call of Read fails, Read returns no error exactly
    when the error is an [awserr.Error] with the code
    [NoSuchDeliveryChannelException]; any other error, of that type or not,
    is returned wrapped as "Getting Delivery Channel failed", and the
    resource data with its identity is left as it was. *)
Theorem Read_returns_other_errors (st : State Svc) e s :
  let input := {| DeliveryChannelNames := [Id (d st)] |} in
  DescribeDeliveryChannels input (conn st) = (inl e, s) ->
  (fst (Read st) = None <->
   exists m, e = AwsError "NoSuchDeliveryChannelException" m) /\
  ((forall m, e <> AwsError "NoSuchDeliveryChannelException" m) ->
   Read st =
   (Some (Errorf "Getting Delivery Channel failed: %s"
            [ArgError (Remote e)]),
    advance st s [CallDescribe input])).
Proof.
  intros input Hdesc. rewrite Read_unfold. cbn zeta. fold input.
  rewrite Hdesc. destruct e as [code m | t].
  - destruct (String.eqb code "NoSuchDeliveryChannelException") eqn:Hcode.
    + apply String.eqb_eq in Hcode as ->. split.
      * split; [intros _; now exists m | reflexivity].
      * intros Hne. now destruct (Hne m).
    + apply String.eqb_neq in Hcode. split; [|reflexivity].
      split; [discriminate | intros [m' Hm]; congruence].
  - split; [|reflexivity].
    split; [discriminate | intros [m Hm]; discriminate].
Qed.


(** X2: whatever the service answers, Read makes exactly one remote call,
    the describe call for the stored identity, and leaves the service as
    that call left it; the stored identity afterwards is the one before or
    the empty string. *)
Theorem Read_makes_one_describe_call (st : State Svc) :
  let input := {| DeliveryChannelNames := [Id (d st)] |} in
  calls (snd (Read st)) = calls st ++ [CallDescribe input] /\
  conn (snd (Read st)) = snd (DescribeDeliveryChannels input (conn st)) /\
  (Id (d (snd (Read st))) = Id (d st) \/ Id (d (snd (Read st))) = "").
Proof.
  intros input. rewrite Read_unfold. cbn zeta. fold input.
  destruct (DescribeDeliveryChannels input (conn st))
    as [[[code m|t]|out] s].
  - destruct (String.eqb code _); cbn; auto.
  - cbn. auto.
  - destruct (DeliveryChannels out) as [|ch [|ch' rest]]; cbn; auto.
Qed.

(** X3: what Read stores, Put sends back.  When Read observes exactly one
    channel, with a name and a bucket, with no optional string that is
    empty, and whose snapshot-delivery block, if it has one, holds a
    frequency that is not empty (and, if it has none, the resource data
    held no block before), Put builds from the resource data after the
    Read the observed channel. *)
Theorem Read_then_putChannel_round_trip (st : State Svc) channel s :
  let input := {| DeliveryChannelNames := [Id (d st)] |} in
  DescribeDeliveryChannels input (conn st) =
    (inr {| DeliveryChannels := [channel] |}, s) ->
  is_Some (Name channel) ->
  is_Some (S3BucketName channel) ->
  S3KeyPrefix channel <> Some "" ->
  S3KmsKeyArn channel <> Some "" ->
  SnsTopicARN channel <> Some "" ->
  match ConfigSnapshotDeliveryProperties channel with
  | Some p => exists f, DeliveryFrequency p = Some f /\ f <> ""
  | None => snapshot_delivery_properties (d st) = []
  end ->
  putChannel (d (snd (Read st))) = Some channel.
Proof.
  intros input Hdesc [n Hn] [b Hb] Hp Hk Ht Hblock.
  rewrite Read_unfold. cbn zeta. fold input. rewrite Hdesc.
  cbn [DeliveryChannels snd with_d d].
  rewrite putChannel_fields. unfold channel_of.
  cbn [name s3_bucket_name s3_key_prefix s3_kms_key_arn sns_topic_arn
       snapshot_delivery_properties].
  rewrite (nonzero_set _ Hp), (nonzero_set _ Hk), (nonzero_set _ Ht).
  destruct channel as [cn cb cp ck ct cs]. cbn in Hn, Hb, Hblock |- *.
  subst cn cb. cbn [deref default].
  destruct cs as [[f]|].
  - destruct Hblock as (v & Hv & _). cbn in Hv. subst f.
    cbn. now rewrite lookup_singleton_eq.
  - now rewrite Hblock.
Qed.

(** ** Put *)

(** X4: once the channel is built, when a put call succeeds, after any
    number of retryable answers within the budget or as the final attempt,
    and the describe call of the read-back returns exactly one channel,
    Put returns no error; it made the put calls and the one describe call,
    and the resource data holds the name as identity and the attributes of
    the observed channel. *)
Theorem Put_retry_then_succeed (st : State Svc) sent (j : nat)
    rs s1 s' channel s'' :
  let input := {| PutInput_DeliveryChannel := sent |} in
  let describe := {| DeliveryChannelNames := [name (d st)] |} in
  putChannel (d st) = Some sent ->
  j <= S (retries_within PropagationTimeout) ->
  run_calls PutDeliveryChannel input j (conn st) = (rs, s1) ->
  Forall (retried put_retryable) rs ->
  PutDeliveryChannel input s1 = (None, s') ->
  DescribeDeliveryChannels describe s' =
    (inr {| DeliveryChannels := [channel] |}, s'') ->
  Put st =
  Some
    (None,
     with_d
       {| Id := name (d st);
          name := deref (Name channel);
          s3_bucket_name := deref (S3BucketName channel);
          s3_key_prefix := S3KeyPrefix channel;
          s3_kms_key_arn := S3KmsKeyArn channel;
          sns_topic_arn := SnsTopicARN channel;
          snapshot_delivery_properties :=
            match ConfigSnapshotDeliveryProperties channel with
            | Some p => flattenConfigSnapshotDeliveryProperties p
            | None => snapshot_delivery_properties (d st)
            end |}
       (advance st s''
          (repeat (CallPut input) (S j) ++ [CallDescribe describe]))).
Proof.
  intros input describe Hch Hj Hrun Hall Hop Hdesc.
  rewrite (Put_succeeds _ _ st sent j rs s1 s' Hch Hj Hrun Hall Hop).
  fold input. f_equal.
  rewrite Read_unfold. cbn zeta.
  cbn [with_d advance d conn calls SetId Id]. fold describe.
  rewrite Hdesc. cbn [DeliveryChannels].
  unfold with_d, advance.
  cbn [d conn calls SetId Id name s3_bucket_name s3_key_prefix
       s3_kms_key_arn sns_topic_arn snapshot_delivery_properties].
  now rewrite <- app_assoc.
Qed.

(** X5: once the channel is built, when a put call succeeds and the
    read-back fails, because the describe call returns an error other than
    the not-found code or more than one channel, Put returns the error of
    Read, not a "Creating" error, and the stored identity is already the
    name; the other attributes are as before, and the describe call is not
    retried. *)
Theorem Put_read_back_failure_keeps_identity (st : State Svc) sent
    (j : nat) rs s1 s' r s'' :
  let input := {| PutInput_DeliveryChannel := sent |} in
  let describe := {| DeliveryChannelNames := [name (d st)] |} in
  putChannel (d st) = Some sent ->
  j <= S (retries_within PropagationTimeout) ->
  run_calls PutDeliveryChannel input j (conn st) = (rs, s1) ->
  Forall (retried put_retryable) rs ->
  PutDeliveryChannel input s1 = (None, s') ->
  DescribeDeliveryChannels describe s' = (r, s'') ->
  match r with
  | inl e => forall m, e <> AwsError "NoSuchDeliveryChannelException" m
  | inr out => 1 < List.length (DeliveryChannels out)
  end ->
  Put st =
  Some
    (Some
       match r with
       | inl e =>
           Errorf "Getting Delivery Channel failed: %s"
             [ArgError (Remote e)]
       | inr out =>
           Errorf
             "Received %d delivery channels under %s (expected exactly 1): %s"
             [ArgInt (List.length (DeliveryChannels out));
              ArgString (name (d st));
              ArgChannels (DeliveryChannels out)]
       end,
     with_d (SetId (name (d st)) (d st))
       (advance st s''
          (repeat (CallPut input) (S j) ++ [CallDescribe describe]))).
Proof.
  intros input describe Hch Hj Hrun Hall Hop Hdesc Hr.
  rewrite (Put_succeeds _ _ st sent j rs s1 s' Hch Hj Hrun Hall Hop).
  fold input. f_equal.
  rewrite Read_unfold. cbn zeta.
  cbn [with_d advance d conn calls SetId Id]. fold describe.
  rewrite Hdesc. unfold with_d, advance.
  cbn [d conn calls]. rewrite <- app_assoc.
  destruct r as [[code m|t]|out].
  - destruct (String.eqb code "NoSuchDeliveryChannelException") eqn:Hcode;
      [|reflexivity].
    apply String.eqb_eq in Hcode as ->. now destruct (Hr m).
  - reflexivity.
  - destruct (DeliveryChannels out) as [|ch [|ch' rest]]; cbn in Hr;
      [lia | lia | reflexivity].
Qed.


(** X11: the channel that Put builds and sends.  It carries the name and
    the bucket; the key prefix, the key reference and the topic reference
    exactly when they are set, and never as an empty string; and a
    snapshot-delivery block exactly when the first block of the resource
    data is a map that holds a frequency, with that frequency.  Every put
    call of the run carries this channel. *)
Theorem Put_sends_the_set_fields (st : State Svc) channel :
  putChannel (d st) = Some channel ->
  channel =
  channel_of (d st)
    match snapshot_delivery_properties (d st) with
    | Some block :: _ =>
        match block !! "delivery_frequency" with
        | Some v => Some {| DeliveryFrequency := Some v |}
        | None => None
        end
    | _ => None
    end /\
  S3KeyPrefix channel <> Some "" /\
  S3KmsKeyArn channel <> Some "" /\
  SnsTopicARN channel <> Some "" /\
  exists k rest res,
    Put st = Some res /\
    calls (snd res) =
    calls st
    ++ repeat (CallPut {| PutInput_DeliveryChannel := channel |}) (S k)
    ++ rest /\
    (rest = [] \/
     rest = [CallDescribe {| DeliveryChannelNames := [name (d st)] |}]).
Proof.
  intros Hch.
  destruct (putChannel_strings (d st) channel Hch) as (_ & _ & Hp & Hk & Ht).
  split.
  - rewrite putChannel_fields in Hch.
    destruct (snapshot_delivery_properties (d st)) as [|[block|] rest];
      [| |discriminate]; now injection Hch as <-.
  - rewrite Hp, Hk, Ht.
    split; [apply nonzero_not_empty|]. split; [apply nonzero_not_empty|].
    split; [apply nonzero_not_empty|].
    destruct (Put_cases retries_within PropagationTimeout st channel Hch)
      as (k & s1 & _ & [[e Hput] | Hput]).
    + eexists k, [], _. split; [exact Hput|]. cbn [snd advance calls].
      rewrite app_nil_r. split; [reflexivity | now left].
    + eexists k, [CallDescribe {| DeliveryChannelNames := [name (d st)] |}],
        _.
      split; [exact Hput|].
      rewrite Read_calls. cbn [with_d advance calls d SetId Id].
      rewrite <- app_assoc. split; [reflexivity | now right].
Qed.

(** ** Delete *)

(** X7: every run of Delete ends with a delete call whose answer decides
    the result: all the answers before it were retryable errors, within
    the budget of thirty seconds and the first run, and Delete returns nil
    exactly when that last answer is a success, and otherwise its error
    wrapped.  No error is taken for a success, and the resource data, with
    its identity, is left as it was. *)
Theorem Delete_result_is_the_last_answer (st : State Svc) :
  let input := {| DeliveryChannelName := Id (d st) |} in
  exists k rs s1 r s',
    k <= S (retries_within (30 * Second)) /\
    run_calls DeleteDeliveryChannel input k (conn st) = (rs, s1) /\
    Forall (retried delete_retryable) rs /\
    DeleteDeliveryChannel input s1 = (r, s') /\
    Delete st =
    (wrapped "Unable to delete delivery channel: %s" r,
     advance st s' (repeat (CallDelete input) (S k))) /\
    (fst (Delete st) = None <-> r = None) /\
    d (snd (Delete st)) = d st.
Proof.
  intros input.
  assert (Hlast : forall k rs s1 r s',
            k <= S (retries_within (30 * Second)) ->
            run_calls DeleteDeliveryChannel input k (conn st) = (rs, s1) ->
            Forall (retried delete_retryable) rs ->
            DeleteDeliveryChannel input s1 = (r, s') ->
            Delete st =
            (wrapped "Unable to delete delivery channel: %s" r,
             advance st s' (repeat (CallDelete input) (S k))) ->
            exists k rs s1 r s',
              k <= S (retries_within (30 * Second)) /\
              run_calls DeleteDeliveryChannel input k (conn st) = (rs, s1) /\
              Forall (retried delete_retryable) rs /\
              DeleteDeliveryChannel input s1 = (r, s') /\
              Delete st =
              (wrapped "Unable to delete delivery channel: %s" r,
               advance st s' (repeat (CallDelete input) (S k))) /\
              (fst (Delete st) = None <-> r = None) /\
              d (snd (Delete st)) = d st).
  { intros k rs s1 r s' Hk Hrun Hall Hop Hdel.
    exists k, rs, s1, r, s'. repeat split; try assumption;
      rewrite Hdel; destruct r; cbn; congruence. }
  destruct (retry_loop_cases DeleteDeliveryChannel CallDelete input
              delete_retryable (delete_attempt input)
              (delete_attempt_calls input)
              (retries_within (30 * Second)) st)
    as [(k & rs & s1 & r & s' & Hk & Hrun & Hall & Hop & Hr & _)
       |(rs & s1 & Hrun & Hall & _)].
  - apply (Hlast k rs s1 r s'); try assumption; [lia|].
    exact (Delete_settled retries_within st k rs s1 r s'
             Hk Hrun Hall Hop Hr).
  - destruct (DeleteDeliveryChannel input s1) as [r s'] eqn:Hop.
    apply (Hlast (S (retries_within (30 * Second))) rs s1 r s');
      try assumption; [lia|].
    exact (Delete_exhausted retries_within st rs s1 r s' Hrun Hall Hop).
Qed.

(** ** The errors that are returned *)



End MoreFacts.

(** ** The three functions against the echoing service *)

Lemma Echo_Delete_stored (rw : Z -> nat)
    (st : State (gmap string DeliveryChannel)) :
  is_Some (conn st !! Id (d st)) ->
  resourceAwsConfigDeliveryChannelDelete (client := Echo.service) rw st =
  (None,
   advance st (delete (Id (d st)) (conn st))
     [CallDelete {| DeliveryChannelName := Id (d st) |}]).
Proof.
  intros [ch Hch].
  apply (Delete_settled (client := Echo.service) rw st 0 [] (conn st) None);
    [lia | reflexivity | constructor | | exact I].
  cbn [DeleteDeliveryChannel Echo.service]. unfold Echo.delete.
  cbn [DeliveryChannelName]. now rewrite Hch.
Qed.

Lemma Echo_Delete_missing (rw : Z -> nat)
    (st : State (gmap string DeliveryChannel)) :
  conn st !! Id (d st) = None ->
  resourceAwsConfigDeliveryChannelDelete (client := Echo.service) rw st =
  (Some (Errorf "Unable to delete delivery channel: %s"
           [ArgError (Remote (AwsError "NoSuchDeliveryChannelException"
                                "no such channel"))]),
   advance st (conn st) [CallDelete {| DeliveryChannelName := Id (d st) |}]).
Proof.
  intros Hnone.
  apply (Delete_settled (client := Echo.service) rw st 0 [] (conn st)
           (Some (AwsError "NoSuchDeliveryChannelException"
                    "no such channel")));
    [lia | reflexivity | constructor | | reflexivity].
  cbn [DeleteDeliveryChannel Echo.service]. unfold Echo.delete.
  cbn [DeliveryChannelName]. now rewrite Hnone.
Qed.

Lemma Echo_Read_missing (st : State (gmap string DeliveryChannel)) :
  conn st !! Id (d st) = None ->
  resourceAwsConfigDeliveryChannelRead (client := Echo.service) st =
  (None,
   with_d (SetId "" (d st))
     (advance st (conn st)
        [CallDescribe {| DeliveryChannelNames := [Id (d st)] |}])).
Proof.
  intros Hnone.
  apply (Read_gone (client := Echo.service) st
           (inr {| DeliveryChannels := [] |}) (conn st)).
  - cbn [DescribeDeliveryChannels Echo.service]. unfold Echo.describe.
    cbn [DeliveryChannelNames omap list_omap]. now rewrite Hnone.
  - right. now eexists.
Qed.

(** X8: against the echoing service, whatever it stored before and
    whatever the retry budget, once Put builds the channel, Put, then
    Delete, then Read all return no error, with one put, one describe, one
    delete and one describe call; Delete leaves the identity that Put set,
    Read clears it, and the service no longer stores the name.  A second
    Delete, on the identity that the first one left, fails with the
    wrapped not-found error of the service. *)
Theorem Echo_put_delete_read (rw : Z -> nat) (pt : Z)
    (x : ResourceData) (channel : DeliveryChannel)
    (store : gmap string DeliveryChannel) (log : list Call) :
  putChannel x = Some channel ->
  exists st1,
    resourceAwsConfigDeliveryChannelPut (client := Echo.service) rw pt
      {| d := x; conn := store; calls := log |} = Some (None, st1) /\
    let st2 :=
      snd (resourceAwsConfigDeliveryChannelDelete (client := Echo.service)
             rw st1) in
    let st3 :=
      snd (resourceAwsConfigDeliveryChannelRead (client := Echo.service)
             st2) in
    fst (resourceAwsConfigDeliveryChannelDelete (client := Echo.service)
           rw st1) = None /\
    fst (resourceAwsConfigDeliveryChannelRead (client := Echo.service)
           st2) = None /\
    Id (d st2) = name x /\
    Id (d st3) = "" /\
    conn st3 !! name x = None /\
    calls st3 =
      log ++
      [CallPut {| PutInput_DeliveryChannel := channel |};
       CallDescribe {| DeliveryChannelNames := [name x] |};
       CallDelete {| DeliveryChannelName := name x |};
       CallDescribe {| DeliveryChannelNames := [name x] |}] /\
    fst (resourceAwsConfigDeliveryChannelDelete (client := Echo.service)
           rw st2) =
    Some (Errorf "Unable to delete delivery channel: %s"
            [ArgError (Remote (AwsError "NoSuchDeliveryChannelException"
                                 "no such channel"))]).
Proof.
  intros Hch.
  set (st1 := {| d := echoed x channel;
                 conn := <[name x := channel]> store;
                 calls := log ++
                   [CallPut {| PutInput_DeliveryChannel := channel |};
                    CallDescribe {| DeliveryChannelNames := [name x] |}]
              |}).
  exists st1.
  split; [exact (Echo_Put rw pt {| d := x; conn := store; calls := log |}
                   channel Hch)|].
  intros st2 st3.
  assert (H2 : resourceAwsConfigDeliveryChannelDelete
                 (client := Echo.service) rw st1 =
               (None,
                advance st1 (delete (Id (d st1)) (conn st1))
                  [CallDelete {| DeliveryChannelName := Id (d st1) |}])).
  { apply Echo_Delete_stored. unfold st1. cbn [d conn echoed Id].
    rewrite lookup_insert_eq. now eexists. }
  assert (Hst2 : st2 =
                 advance st1 (delete (Id (d st1)) (conn st1))
                   [CallDelete {| DeliveryChannelName := Id (d st1) |}])
    by (unfold st2; now rewrite H2).
  assert (Hgone : conn st2 !! Id (d st2) = None).
  { rewrite Hst2. cbn [advance d conn]. apply lookup_delete_eq. }
  assert (H3 : resourceAwsConfigDeliveryChannelRead
                 (client := Echo.service) st2 =
               (None,
                with_d (SetId "" (d st2))
                  (advance st2 (conn st2)
                     [CallDescribe
                        {| DeliveryChannelNames := [Id (d st2)] |}])))
    by (apply Echo_Read_missing; exact Hgone).
  assert (Hid2 : Id (d st2) = name x) by (rewrite Hst2; reflexivity).
  assert (Hst3 : st3 =
                 with_d (SetId "" (d st2))
                   (advance st2 (conn st2)
                      [CallDescribe
                         {| DeliveryChannelNames := [Id (d st2)] |}]))
    by (unfold st3; now rewrite H3).
  split; [now rewrite H2|].
  split; [now rewrite H3|]. split; [exact Hid2|].
  split; [now rewrite Hst3|].
  split; [rewrite Hst3; cbn [with_d advance conn]; now rewrite <- Hid2|].
  split.
  - rewrite Hst3. cbn [with_d advance calls]. rewrite Hid2.
    rewrite Hst2. cbn [advance calls]. unfold st1.
    cbn [calls d Id echoed].
    rewrite <- !app_assoc. reflexivity.
  - now rewrite (Echo_Delete_missing rw st2 Hgone).
Qed.

(** X10: against the echoing service, whatever it stored before and
    whatever the retry budget, once Put builds the channel, Put returns no
    error and leaves the resource data [echoed x channel]; a second Put,
    on the state the first one left or on the same attributes [x] again,
    returns no error and leaves the same resource data and the same stored
    channels. *)
Theorem Echo_upsert_is_idempotent (rw : Z -> nat) (pt : Z)
    (x : ResourceData) (channel : DeliveryChannel)
    (store : gmap string DeliveryChannel) (log : list Call) :
  putChannel x = Some channel ->
  exists st1 st2 st3,
    resourceAwsConfigDeliveryChannelPut (client := Echo.service) rw pt
      {| d := x; conn := store; calls := log |} = Some (None, st1) /\
    resourceAwsConfigDeliveryChannelPut (client := Echo.service) rw pt
      st1 = Some (None, st2) /\
    resourceAwsConfigDeliveryChannelPut (client := Echo.service) rw pt
      (with_d x st1) = Some (None, st3) /\
    d st1 = echoed x channel /\
    d st2 = d st1 /\ d st3 = d st1 /\
    conn st2 = conn st1 /\ conn st3 = conn st1.
Proof.
  intros Hch.
  pose proof (putChannel_echoed x channel Hch) as Hch'.
  set (st0 := {| d := x; conn := store; calls := log |}).
  set (st1 := {| d := echoed x channel;
                 conn := <[name x := channel]> store;
                 calls := log ++
                   [CallPut {| PutInput_DeliveryChannel := channel |};
                    CallDescribe {| DeliveryChannelNames := [name x] |}]
              |}).
  exists st1. eexists _, _.
  split; [exact (Echo_Put rw pt st0 channel Hch)|].
  split; [exact (Echo_Put rw pt st1 channel Hch')|].
  split; [exact (Echo_Put rw pt (with_d x st1) channel Hch)|].
  unfold st1. cbn [d conn with_d].
  assert (Hn : name (echoed x channel) = name x) by reflexivity.
  rewrite echoed_echoed, Hn, insert_insert_eq.
  repeat split.
Qed.

(** ** The further properties at concrete inputs *)

(** X1 at [More.refused_describe]. *)
Lemma Read_returns_other_errors_witness :
  resourceAwsConfigDeliveryChannelRead (client := Scripted.service)
    More.refused_describe =
  (Some (Errorf "Getting Delivery Channel failed: %s"
           [ArgError (Remote Sample.access_denied)]),
   advance More.refused_describe (Sample.script [] [] [])
     [CallDescribe
        {| DeliveryChannelNames := [Id (d More.refused_describe)] |}]).
Proof.
  exact (proj2 (Read_returns_other_errors (client := Scripted.service)
                  More.refused_describe Sample.access_denied
                  (Sample.script [] [] []) eq_refl)
           ltac:(intros m; discriminate)).
Defined.

(** X3 at [More.found_hourly]. *)
Lemma Read_then_putChannel_round_trip_witness :
  putChannel
    (d (snd (resourceAwsConfigDeliveryChannelRead
               (client := Scripted.service) More.found_hourly))) =
  Some More.hourly_channel.
Proof.
  apply (Read_then_putChannel_round_trip (client := Scripted.service)
           More.found_hourly More.hourly_channel (Sample.script [] [] [])).
  - reflexivity.
  - now exists "default".
  - now exists "my-bucket".
  - cbn. discriminate.
  - cbn. discriminate.
  - cbn. discriminate.
  - cbn. exists "One_Hour". split; [reflexivity | discriminate].
Defined.

(** X4 at [More.written_and_seen]: one retryable answer, then success. *)
Lemma Put_retry_then_succeed_witness :
  exists st,
    resourceAwsConfigDeliveryChannelPut (client := Scripted.service)
      Sample.retries_within Sample.PropagationTimeout
      More.written_and_seen = Some (None, st) /\
    Id (d st) = "default" /\
    s3_key_prefix (d st) = Some "logs" /\
    snapshot_delivery_properties (d st) =
    [ Some {[ "delivery_frequency" := "One_Hour" ]} ].
Proof.
  eexists. split.
  - exact (Put_retry_then_succeed (client := Scripted.service)
             Sample.retries_within Sample.PropagationTimeout
             More.written_and_seen Sample.bare_channel 1
             [Some Sample.policy_pending]
             (Sample.script [None]
                [inr {| DeliveryChannels := [More.hourly_channel] |}] [])
             (Sample.script []
                [inr {| DeliveryChannels := [More.hourly_channel] |}] [])
             More.hourly_channel
             (Sample.script [] [] [])
             eq_refl
             ltac:(vm_compute; lia)
             eq_refl
             ltac:(all_retried)
             eq_refl
             eq_refl).
  - repeat split.
Defined.

(** X5 at [More.written_unreadable]: the put call succeeds and describe
    is refused. *)
Lemma Put_read_back_failure_keeps_identity_witness :
  exists st,
    resourceAwsConfigDeliveryChannelPut (client := Scripted.service)
      Sample.retries_within Sample.PropagationTimeout
      More.written_unreadable =
    Some (Some (Errorf "Getting Delivery Channel failed: %s"
                  [ArgError (Remote Sample.access_denied)]), st) /\
    Id (d st) = "default".
Proof.
  eexists. split.
  - exact (Put_read_back_failure_keeps_identity (client := Scripted.service)
             Sample.retries_within Sample.PropagationTimeout
             More.written_unreadable Sample.bare_channel 0 []
             (Sample.script [None] [inl Sample.access_denied] [])
             (Sample.script [] [inl Sample.access_denied] [])
             (inl Sample.access_denied)
             (Sample.script [] [] [])
             eq_refl
             ltac:(vm_compute; lia)
             eq_refl
             ltac:(constructor)
             eq_refl
             eq_refl
             ltac:(intros m; discriminate)).
  - reflexivity.
Defined.

(** The channel that is built from [Sample.spec_hourly]. *)
Lemma putChannel_spec_hourly :
  putChannel Sample.spec_hourly = Some More.hourly_channel.
Proof. vm_compute. reflexivity. Qed.

(** X8 at [Sample.spec_hourly] and a service that stores nothing. *)
Lemma Echo_put_delete_read_witness :
  exists st1,
    resourceAwsConfigDeliveryChannelPut (client := Echo.service)
      Sample.retries_within Sample.PropagationTimeout
      {| d := Sample.spec_hourly; conn := ∅; calls := [] |} =
    Some (None, st1) /\
    Id (d (snd (resourceAwsConfigDeliveryChannelRead
                  (client := Echo.service)
                  (snd (resourceAwsConfigDeliveryChannelDelete
                          (client := Echo.service)
                          Sample.retries_within st1))))) = "".
Proof.
  destruct (Echo_put_delete_read Sample.retries_within
              Sample.PropagationTimeout Sample.spec_hourly
              More.hourly_channel ∅ [] putChannel_spec_hourly)
    as (st1 & Hput & _ & _ & _ & Hid & _).
  exists st1. split; [exact Hput | exact Hid].
Defined.

(** X10 at [Sample.spec_hourly] and a service that stores nothing. *)
Lemma Echo_upsert_is_idempotent_witness :
  exists st1 st2,
    resourceAwsConfigDeliveryChannelPut (client := Echo.service)
      Sample.retries_within Sample.PropagationTimeout
      {| d := Sample.spec_hourly; conn := ∅; calls := [] |} =
    Some (None, st1) /\
    resourceAwsConfigDeliveryChannelPut (client := Echo.service)
      Sample.retries_within Sample.PropagationTimeout st1 =
    Some (None, st2) /\
    d st2 = d st1 /\ conn st2 = conn st1.
Proof.
  destruct (Echo_upsert_is_idempotent Sample.retries_within
              Sample.PropagationTimeout Sample.spec_hourly
              More.hourly_channel ∅ [] putChannel_spec_hourly)
    as (st1 & st2 & st3 & H1 & H2 & _ & _ & Hd & _ & Hc & _).
  exists st1, st2. repeat split; assumption.
Defined.

(** X11 at [Sample.spec_hourly]: the prefix and the hourly block are
    sent. *)
Lemma Put_sends_the_set_fields_witness :
  More.hourly_channel =
  channel_of Sample.spec_hourly
    (Some {| DeliveryFrequency := Some "One_Hour" |}).
Proof.
  destruct (Put_sends_the_set_fields (client := Echo.service)
              Sample.retries_within Sample.PropagationTimeout
              {| d := Sample.spec_hourly; conn := ∅; calls := [] |}
              More.hourly_channel putChannel_spec_hourly)
    as (Hfields & _).
  exact Hfields.
Defined.
